(** * goalsa: Go bindings to the ALSA library

    A shallow embedding of the two variants of the binding that the
    repository carries:

    - [Alsa]: [alsa.go], the raw-byte interface ([Read]/[Write] take a
      [[]byte], the audio parameters live behind a pointer, [Close] returns
      an error);
    - [Generic]: the second source file, whose [Read]/[Write] take an
      [interface{}] and inspect it with package [reflect].

    The ALSA library itself is an external collaborator.  It is modelled as
    a deterministic state machine [backend : W -> call -> response * W] over
    an arbitrary world [W]; every cgo call of the source is one [call], and
    the embedding records the calls it makes together with the answers it
    got, in order.  Go code runs in a small monad that threads the world,
    accumulates that trace and propagates panics.

    Platform assumptions (LP64 Linux, the only platform ALSA exists on with
    a 64-bit Go [int]): Go [int], C [long] and [snd_pcm_sframes_t] are 64-bit
    signed, [snd_pcm_uframes_t] is 64-bit unsigned, C [int] and [unsigned]
    are 32 bits wide. *)

From Stdlib Require Import ZArith List String Bool Lia.
Import ListNotations.

Local Open Scope Z_scope.

(** ** Machine integers *)

Module Machine.

Definition wrap_unsigned (bits z : Z) : Z := z mod 2 ^ bits.

Definition wrap_signed (bits z : Z) : Z :=
  (z + 2 ^ (bits - 1)) mod 2 ^ bits - 2 ^ (bits - 1).

(** Go [int]. *)
Definition int : Z -> Z := wrap_signed 64.
(** [C.long] and [C.snd_pcm_sframes_t]. *)
Definition C_long : Z -> Z := wrap_signed 64.
(** [C.int]. *)
Definition C_int : Z -> Z := wrap_signed 32.
(** [C.uint]. *)
Definition C_uint : Z -> Z := wrap_unsigned 32.
(** [C.snd_pcm_uframes_t]. *)
Definition C_snd_pcm_uframes_t : Z -> Z := wrap_unsigned 64.

(** Go's [/] on 64-bit signed integers: the quotient is truncated toward
    zero, a zero divisor makes the run-time panic, and the one overflowing
    case (the least integer divided by -1) wraps. *)
Definition quo (a b : Z) : option Z :=
  if b =? 0 then None else Some (wrap_signed 64 (Z.quot a b)).

Definition in_int (z : Z) : Prop := - 2 ^ 63 <= z < 2 ^ 63.

(** [EPIPE] of <errno.h> on Linux. *)
Definition EPIPE : Z := 32.

End Machine.

Import Machine.

(** ** The backend: cgo calls and their answers *)

(** A C pointer; [NULL] is Go's [nil]. *)
Definition ptr := N.
Definition NULL : ptr := 0%N.

Definition is_nil (p : ptr) : bool := N.eqb p NULL.

(** One constructor per ALSA function the source calls.  In-out arguments
    ([&d.h], [&bufferSize], [&periodFrames], [&periods]) appear with the value
    they hold when the call is made; the value the library leaves in them is
    part of the [response]. *)
Inductive call : Type :=
| snd_pcm_open (old : ptr) (name : string) (playback : bool)
| snd_pcm_hw_params_malloc
| snd_pcm_hw_params_free (params : ptr)
| snd_pcm_hw_params_any (pcm params : ptr)
| snd_pcm_hw_params_set_access (pcm params : ptr)
| snd_pcm_hw_params_set_format (pcm params : ptr) (format : Z)
| snd_pcm_hw_params_set_channels (pcm params : ptr) (channels : Z)
| snd_pcm_hw_params_set_rate (pcm params : ptr) (rate : Z)
| snd_pcm_hw_params_get_buffer_size_max (params : ptr) (val : Z)
| snd_pcm_hw_params_set_buffer_size_near (pcm params : ptr) (val : Z)
| snd_pcm_hw_params_set_period_size_near (pcm params : ptr) (val : Z)
| snd_pcm_hw_params_get_periods (params : ptr) (val : Z)
| snd_pcm_hw_params (pcm params : ptr)
| snd_pcm_drain (pcm : ptr)
| snd_pcm_close (pcm : ptr)
| snd_pcm_readi (pcm : ptr) (size : Z)
| snd_pcm_writei (pcm : ptr) (size : Z)
| snd_pcm_prepare (pcm : ptr)
| snd_pcm_drop (pcm : ptr)
| snd_mixer_open
| snd_mixer_close (mixer : ptr)
| snd_mixer_attach (mixer : ptr) (name : string)
| snd_mixer_selem_register (mixer : ptr)
| snd_mixer_load (mixer : ptr)
| snd_mixer_selem_id_malloc
| snd_mixer_selem_id_free (sid : ptr)
| snd_mixer_selem_id_set_index (sid : ptr) (index : Z)
| snd_mixer_selem_id_set_name (sid : ptr) (name : string)
| snd_mixer_find_selem (mixer sid : ptr)
| snd_mixer_selem_get_playback_volume_range (elem : ptr)
| snd_mixer_selem_set_playback_volume_all (elem : ptr) (value : Z)
| snd_mixer_selem_get_playback_volume (elem : ptr).

(** What a call hands back: the C return value, up to two integers written
    through out-pointers and a pointer written through an out-pointer (or
    returned, for [snd_mixer_find_selem]).  The Go side reads each of them at
    the C type of the variable that receives it. *)
Record response : Type := Response {
  ret : Z;
  out1 : Z;
  out2 : Z;
  outp : ptr
}.

Record event : Type := Ev { ev_call : call; ev_resp : response }.

Definition is_transfer (c : call) : bool :=
  match c with
  | snd_pcm_readi _ _ | snd_pcm_writei _ _ => true
  | _ => false
  end.

(** ** Errors and panics *)

Inductive error : Type :=
| ErrOverrun
| ErrUnderrun
| ErrSize
| createError (errorMsg : string) (errorCode : Z)
| errors_New (text : string)
| could_not_open (deviceName : string).

Inductive panic : Type :=
| divide_by_zero
| index_out_of_range
| nil_dereference
| unsupported_format
| slice_of_unaddressable_array.

Inductive outcome (A : Type) : Type :=
| Done (a : A)
| Panic (p : panic).

Arguments Done {A} a.
Arguments Panic {A} p.

(** ** The monad Go code runs in *)

Section Monad.

Context {W : Type}.
Variable backend : W -> call -> response * W.

Definition M (A : Type) : Type := W -> outcome A * W * list event.

Definition Return {A} (a : A) : M A := fun w => (Done a, w, []).

Definition throw {A} (p : panic) : M A := fun w => (Panic p, w, []).

Definition bind {A B} (m : M A) (k : A -> M B) : M B :=
  fun w =>
    match m w with
    | (Done a, w1, t1) =>
        match k a w1 with
        | (o, w2, t2) => (o, w2, t1 ++ t2)
        end
    | (Panic p, w1, t1) => (Panic p, w1, t1)
    end.

(** A cgo call. *)
Definition cgo (c : call) : M response :=
  fun w => match backend w c with (r, w1) => (Done r, w1, [Ev c r]) end.

(** [defer c] in front of [m]: the deferred call runs when [m] is left,
    by a return or by a panic alike. *)
Definition defer {A} (c : call) (m : M A) : M A :=
  fun w =>
    match m w with
    | (o, w1, t1) =>
        match backend w1 c with
        | (r, w2) => (o, w2, t1 ++ [Ev c r])
        end
    end.

End Monad.

Declare Scope go_scope.
Delimit Scope go_scope with go.
Notation "x <- m ;; k" := (bind m (fun x => k))
  (at level 61, m at next level, right associativity) : go_scope.

(** Projections of a finished run. *)
Definition result {A W} (r : outcome A * W * list event) : outcome A := fst (fst r).
Definition world {A W} (r : outcome A * W * list event) : W := snd (fst r).
Definition trace {A W} (r : outcome A * W * list event) : list event := snd r.

(** ** Sample formats

    The values of [snd_pcm_format_t] come from <alsa/pcm.h>; the Go constants
    alias them. *)
Module Format.
Definition S8 : Z := 0.
Definition U8 : Z := 1.
Definition S16LE : Z := 2.
Definition S16BE : Z := 3.
Definition U16LE : Z := 4.
Definition U16BE : Z := 5.
Definition S24LE : Z := 6.
Definition S24BE : Z := 7.
Definition U24LE : Z := 8.
Definition U24BE : Z := 9.
Definition S32LE : Z := 10.
Definition S32BE : Z := 11.
Definition U32LE : Z := 12.
Definition U32BE : Z := 13.
Definition FloatLE : Z := 14.
Definition FloatBE : Z := 15.
Definition Float64LE : Z := 16.
Definition Float64BE : Z := 17.

(** The [switch] of [formatSampleSize], shared by both variants; [None] is
    the fall-through to [panic("unsupported format")]. *)
Definition sampleSize (f : Z) : option Z :=
  if (f =? S8) || (f =? U8) then Some 1
  else if (f =? S16LE) || (f =? S16BE) || (f =? U16LE) || (f =? U16BE) then Some 2
  else if (f =? S24LE) || (f =? S24BE) || (f =? U24LE) || (f =? U24BE)
          || (f =? S32LE) || (f =? S32BE) || (f =? U32LE) || (f =? U32BE)
          || (f =? FloatLE) || (f =? FloatBE) then Some 4
  else if (f =? Float64LE) || (f =? Float64BE) then Some 8
  else None.
End Format.

Record BufferParams : Type := mkBufferParams {
  BufferFrames : Z;
  PeriodFrames : Z;
  Periods : Z
}.

Definition card : string := "default".

(** The period length [initDevice] and [createDevice] ask the backend for,
    the same block in both (from the comment [Default period size: 1/8 of a
    second] to the [snd_pcm_hw_params_set_period_size_near] call): [rate] is
    the sampling rate, a Go [int]; [bufferSize] is the [snd_pcm_uframes_t]
    the buffer-size step left behind. *)
Definition requested_period (rate : Z) (bufferParams : BufferParams) (bufferSize : Z) : Z :=
  let periodFrames := C_snd_pcm_uframes_t (Z.quot rate 8) in
  if PeriodFrames bufferParams >? 0
  then C_snd_pcm_uframes_t (PeriodFrames bufferParams)
  else if Periods bufferParams >? 0
  then C_snd_pcm_uframes_t (Z.quot (int bufferSize) (Periods bufferParams))
  else periodFrames.

(** The rule for the period length as the specification words it: the hint's
    period-frame count if positive; else, if the hint's period count is
    positive, the resolved buffer length divided by it; else one eighth of the
    sample rate. *)
Definition resolve_period_length (rate : Z) (hint : BufferParams) (buffer : Z) : Z :=
  if 0 <? PeriodFrames hint then PeriodFrames hint
  else if 0 <? Periods hint then buffer / Periods hint
  else rate / 8.

(** ** [alsa.go] *)

Module Alsa.

Definition mixer : string := "PCM".

Record AudioParams : Type := mkAudioParams {
  Channels : Z;
  SamplingRate : Z;
  SampleFormat : Z
}.

(** [Audio] is a pointer in the source: [None] is [nil].  [finalizer] is
    the run-time's record of [runtime.SetFinalizer] for this device: [true]
    while the [Close] method is registered, [false] once it is cleared. *)
Record device : Type := mkDevice {
  h : ptr;
  Audio : option AudioParams;
  bufferParams : BufferParams;
  frames : Z;
  finalizer : bool
}.

Definition set_h (d : device) (p : ptr) : device :=
  mkDevice p (Audio d) (bufferParams d) (frames d) (finalizer d).

Definition SetFinalizer (d : device) (f : bool) : device :=
  mkDevice (h d) (Audio d) (bufferParams d) (frames d) f.

(** The zero value [new(CaptureDevice)] and [new(PlaybackDevice)] start from. *)
Definition new_device : device :=
  mkDevice NULL None (mkBufferParams 0 0 0) 0 false.

Section Code.

Context {W : Type}.
Variable backend : W -> call -> response * W.

Local Open Scope string_scope.
Local Open Scope Z_scope.
Local Open Scope go_scope.

Let C := cgo backend.
Let deferred {A} := @defer W backend A.

Definition initDevice (d : device) (deviceName : string)
    (audio : option AudioParams) (playback : bool)
    (bufferParams : BufferParams) : M (device * option error) :=
  r <- C (snd_pcm_open (h d) deviceName playback) ;;
  let d := set_h d (outp r) in
  if C_int (ret r) <? 0 then Return (d, Some (could_not_open deviceName)) else
  let d := SetFinalizer d true in
  r <- C snd_pcm_hw_params_malloc ;;
  let hwParams := outp r in
  if C_int (ret r) <? 0
  then Return (d, Some (createError "could not alloc hw params" (C_int (ret r)))) else
  deferred (snd_pcm_hw_params_free hwParams) (
  r <- C (snd_pcm_hw_params_any (h d) hwParams) ;;
  if C_int (ret r) <? 0
  then Return (d, Some (createError "could not set default hw params" (C_int (ret r)))) else
  r <- C (snd_pcm_hw_params_set_access (h d) hwParams) ;;
  if C_int (ret r) <? 0
  then Return (d, Some (createError "could not set access params" (C_int (ret r)))) else
  match audio with
  | None => throw nil_dereference
  | Some a =>
  r <- C (snd_pcm_hw_params_set_format (h d) hwParams (SampleFormat a)) ;;
  if C_int (ret r) <? 0
  then Return (d, Some (createError "could not set format params" (C_int (ret r)))) else
  r <- C (snd_pcm_hw_params_set_channels (h d) hwParams (C_uint (Channels a))) ;;
  if C_int (ret r) <? 0
  then Return (d, Some (createError "could not set channels params" (C_int (ret r)))) else
  r <- C (snd_pcm_hw_params_set_rate (h d) hwParams (C_uint (SamplingRate a))) ;;
  if C_int (ret r) <? 0
  then Return (d, Some (createError "could not set rate params" (C_int (ret r)))) else
  let bufferSize := C_snd_pcm_uframes_t (BufferFrames bufferParams) in
  rb <- (if BufferFrames bufferParams =? 0
         then r <- C (snd_pcm_hw_params_get_buffer_size_max hwParams bufferSize) ;;
              Return (C_int (ret r), C_snd_pcm_uframes_t (out1 r))
         else Return (0, bufferSize)) ;;
  let bufferSize := snd rb in
  if fst rb <? 0
  then Return (d, Some (createError "could not get buffer size" (fst rb))) else
  r <- C (snd_pcm_hw_params_set_buffer_size_near (h d) hwParams bufferSize) ;;
  let bufferSize := C_snd_pcm_uframes_t (out1 r) in
  if C_int (ret r) <? 0
  then Return (d, Some (createError "could not set buffer size" (C_int (ret r)))) else
  let periodFrames := requested_period (SamplingRate a) bufferParams bufferSize in
  r <- C (snd_pcm_hw_params_set_period_size_near (h d) hwParams periodFrames) ;;
  let periodFrames := C_snd_pcm_uframes_t (out1 r) in
  if C_int (ret r) <? 0
  then Return (d, Some (createError "could not set period size" (C_int (ret r)))) else
  r <- C (snd_pcm_hw_params_get_periods hwParams 0) ;;
  let periods := C_uint (out1 r) in
  if C_int (ret r) <? 0
  then Return (d, Some (createError "could not get periods" (C_int (ret r)))) else
  r <- C (snd_pcm_hw_params (h d) hwParams) ;;
  if C_int (ret r) <? 0
  then Return (d, Some (createError "could not set hw params" (C_int (ret r)))) else
  Return (mkDevice (h d) audio
            (mkBufferParams (int bufferSize) (int periodFrames) (int periods))
            (int periodFrames) (finalizer d), None)
  end).

Definition Close (d : device) : M (device * option error) :=
  if negb (is_nil (h d)) then
    _ <- C (snd_pcm_drain (h d)) ;;
    r <- C (snd_pcm_close (h d)) ;;
    if C_int (ret r) <? 0
    then Return (d, Some (createError "Error closing device handle" (C_int (ret r))))
    else Return (SetFinalizer (set_h d NULL) false, None)
  else Return (SetFinalizer d false, None).

Definition formatSampleSize (d : device) : outcome Z :=
  match Audio d with
  | None => Panic nil_dereference
  | Some a =>
      match Format.sampleSize (SampleFormat a) with
      | Some s => Done s
      | None => Panic unsupported_format
      end
  end.


(** The mixer prologue the two volume functions share, from
    [snd_mixer_open] to [snd_mixer_selem_get_playback_volume_range]; [k]
    is the rest of the function, run with the element and the range.
    [C.CString] and [C.free] manage C strings only and are left out. *)
Definition with_mixer_element {A} (fail : error -> A)
    (k : ptr -> Z -> Z -> M A) : M A :=
  r <- C snd_mixer_open ;;
  let handle := outp r in
  if C_int (ret r) <? 0
  then Return (fail (createError "could not open mixer" (C_int (ret r)))) else
  deferred (snd_mixer_close handle) (
  _ <- C (snd_mixer_attach handle card) ;;
  r <- C (snd_mixer_selem_register handle) ;;
  if C_int (ret r) <? 0
  then Return (fail (createError "could not register simple element class" (C_int (ret r)))) else
  r <- C (snd_mixer_load handle) ;;
  if C_int (ret r) <? 0
  then Return (fail (createError "could not load mixer handle" (C_int (ret r)))) else
  r <- C snd_mixer_selem_id_malloc ;;
  let sid := outp r in
  if C_int (ret r) <? 0
  then Return (fail (createError "could not allocate simple element pointer" (C_int (ret r)))) else
  deferred (snd_mixer_selem_id_free sid) (
  _ <- C (snd_mixer_selem_id_set_index sid 0) ;;
  _ <- C (snd_mixer_selem_id_set_name sid mixer) ;;
  r <- C (snd_mixer_find_selem handle sid) ;;
  let elem := outp r in
  r <- C (snd_mixer_selem_get_playback_volume_range elem) ;;
  let min := C_long (out1 r) in
  let max := C_long (out2 r) in
  if C_int (ret r) <? 0
  then Return (fail (createError "could not get simple element volume range" (C_int (ret r)))) else
  k elem min max)).

Definition SetMasterVolume (d : device) (volume : Z) : M (option error) :=
  with_mixer_element Some (fun elem min max =>
    let vol := C_long volume in
    let total := C_long (max - min) in
    let vol := C_long (Z.quot (C_long (vol * total)) 100 + min) in
    r <- C (snd_mixer_selem_set_playback_volume_all elem vol) ;;
    if C_int (ret r) <? 0
    then Return (Some (createError "could not set playback volume" (C_int (ret r))))
    else Return None).

Definition GetMasterVolume (d : device) : M (Z * option error) :=
  with_mixer_element (fun e => (0, Some e)) (fun elem min max =>
    r <- C (snd_mixer_selem_get_playback_volume elem) ;;
    let outvol := C_long (out1 r) in
    if C_int (ret r) <? 0
    then Return (0, Some (createError "could not get playback volume" (C_int (ret r)))) else
    let outvol := C_long (outvol - min) in
    let max := C_long (max - min) in
    match quo (C_long (100 * outvol)) max with
    | None => throw divide_by_zero
    | Some outvol => Return (int outvol, None)
    end).

(** [Read] and [Write] share everything but the transfer call and the
    sentinel error: [len(buffer) / c.Audio.Channels], then [&buffer[0]],
    then the call.  The bytes the backend leaves in the buffer are not
    part of what the Go function returns and are not modelled. *)
Definition transfer (xfer : ptr -> Z -> call) (pipe : error) (msg : string)
    (d : device) (buffer : list Byte.byte) : M (Z * option error) :=
  match Audio d with
  | None => throw nil_dereference
  | Some a =>
      match quo (Z.of_nat (List.length buffer)) (Channels a) with
      | None => throw divide_by_zero
      | Some q =>
          let frames := C_snd_pcm_uframes_t q in
          match buffer with
          | [] => throw index_out_of_range
          | _ :: _ =>
              r <- C (xfer (h d) frames) ;;
              let n := C_long (ret r) in
              if n =? - EPIPE then
                _ <- C (snd_pcm_prepare (h d)) ;;
                Return (0, Some pipe)
              else if n <? 0 then
                Return (0, Some (createError msg (C_int n)))
              else Return (int (int n * Channels a), None)
          end
      end
  end.

Definition Read (c : device) (buffer : list Byte.byte) : M (Z * option error) :=
  transfer snd_pcm_readi ErrOverrun "read error" c buffer.

Definition Write (p : device) (buffer : list Byte.byte) : M (Z * option error) :=
  transfer snd_pcm_writei ErrUnderrun "write error" p buffer.

Definition Drop (p : device) : M (option error) :=
  r <- C (snd_pcm_drop (h p)) ;;
  if C_int (ret r) <? 0
  then Return (Some (createError "Could not drop the stream" (C_int (ret r))))
  else Return None.

Definition NewCaptureDevice (deviceName : string) (audio : option AudioParams)
    (bufferParams : BufferParams) : M (option device * option error) :=
  r <- initDevice new_device deviceName audio false bufferParams ;;
  match snd r with
  | Some err => Return (None, Some err)
  | None => Return (Some (fst r), None)
  end.

Definition NewPlaybackDevice (deviceName : string) (audio : option AudioParams)
    (bufferParams : BufferParams) : M (option device * option error) :=
  r <- initDevice new_device deviceName audio true bufferParams ;;
  match snd r with
  | Some err => Return (None, Some err)
  | None => Return (Some (fst r), None)
  end.

End Code.

End Alsa.

(** ** Package [reflect], as far as the generic variant uses it *)

Module reflect.

Inductive Kind : Type :=
| Invalid | Bool | Int | Int8 | Int16 | Int32 | Int64
| Uint | Uint8 | Uint16 | Uint32 | Uint64 | Uintptr
| Float32 | Float64 | Complex64 | Complex128
| Array | Chan | Func | Interface | Map | Pointer | Slice | String
| Struct | UnsafePointer.

(** What [TypeOf] and [ValueOf] show of a non-nil [interface{}]: the kind
    of its dynamic type and, when that is an array or a slice, the kind of
    the element type and the length.  The other two fields are not looked at
    for any other kind. *)
Record Value : Type := mkValue {
  kind : Kind;
  elem : Kind;
  len : nat
}.

Definition is_Array (k : Kind) : bool :=
  match k with Array => true | _ => false end.

Definition is_Slice (k : Kind) : bool :=
  match k with Slice => true | _ => false end.

(** Size in bytes of a value of a kind whose size is fixed by the kind
    alone (LP64). *)
Definition Size (k : Kind) : option Z :=
  match k with
  | Bool | Int8 | Uint8 => Some 1
  | Int16 | Uint16 => Some 2
  | Int32 | Uint32 | Float32 => Some 4
  | Int | Int64 | Uint | Uint64 | Uintptr | Float64 | Complex64
  | Chan | Func | Map | Pointer | UnsafePointer => Some 8
  | Complex128 | Interface | String => Some 16
  | Slice => Some 24
  | Invalid | Array | Struct => None
  end.

End reflect.

(** ** The generic variant *)

Module Generic.

Definition mixer : string := "Master".

Record device : Type := mkDevice {
  h : ptr;
  Channels : Z;
  Format : Z;
  Rate : Z;
  bufferParams : BufferParams;
  frames : Z;
  finalizer : bool
}.

Definition set_h (d : device) (p : ptr) : device :=
  mkDevice p (Channels d) (Format d) (Rate d) (bufferParams d) (frames d) (finalizer d).

Definition SetFinalizer (d : device) (f : bool) : device :=
  mkDevice (h d) (Channels d) (Format d) (Rate d) (bufferParams d) (frames d) f.

Definition new_device : device :=
  mkDevice NULL 0 0 0 (mkBufferParams 0 0 0) 0 false.

Definition formatSampleSize (d : device) : outcome Z :=
  match Format.sampleSize (Format d) with
  | Some s => Done s
  | None => Panic unsupported_format
  end.

(** The [switch bufferType.Elem().Kind()] of [Read] and [Write]:
    [Done None] lets the function go on, [Done (Some e)] is its early
    [return 0, e]. *)
Definition check_size (d : device) (want : Z) : outcome (option error) :=
  match formatSampleSize d with
  | Panic p => Panic p
  | Done s => if negb (s =? want) then Done (Some ErrSize) else Done None
  end.

Definition check_elem (d : device) (k : reflect.Kind) (unsupported : string)
    : outcome (option error) :=
  match k with
  | reflect.Int8 => check_size d 1
  | reflect.Int16 => check_size d 2
  | reflect.Int32 | reflect.Float32 => check_size d 4
  | reflect.Float64 => check_size d 8
  | _ => Done (Some (errors_New unsupported))
  end.

Section Code.

Context {W : Type}.
Variable backend : W -> call -> response * W.

Local Open Scope string_scope.
Local Open Scope Z_scope.
Local Open Scope go_scope.

Let C := cgo backend.
Let deferred {A} := @defer W backend A.

Definition createDevice (d : device) (deviceName : string)
    (channels : Z) (format : Z) (rate : Z) (playback : bool)
    (bufferParams : BufferParams) : M (device * option error) :=
  r <- C (snd_pcm_open (h d) deviceName playback) ;;
  let d := set_h d (outp r) in
  if C_int (ret r) <? 0 then Return (d, Some (could_not_open deviceName)) else
  let d := SetFinalizer d true in
  r <- C snd_pcm_hw_params_malloc ;;
  let hwParams := outp r in
  if C_int (ret r) <? 0
  then Return (d, Some (createError "could not alloc hw params" (C_int (ret r)))) else
  deferred (snd_pcm_hw_params_free hwParams) (
  r <- C (snd_pcm_hw_params_any (h d) hwParams) ;;
  if C_int (ret r) <? 0
  then Return (d, Some (createError "could not set default hw params" (C_int (ret r)))) else
  r <- C (snd_pcm_hw_params_set_access (h d) hwParams) ;;
  if C_int (ret r) <? 0
  then Return (d, Some (createError "could not set access params" (C_int (ret r)))) else
  r <- C (snd_pcm_hw_params_set_format (h d) hwParams format) ;;
  if C_int (ret r) <? 0
  then Return (d, Some (createError "could not set format params" (C_int (ret r)))) else
  r <- C (snd_pcm_hw_params_set_channels (h d) hwParams (C_uint channels)) ;;
  if C_int (ret r) <? 0
  then Return (d, Some (createError "could not set channels params" (C_int (ret r)))) else
  r <- C (snd_pcm_hw_params_set_rate (h d) hwParams (C_uint rate)) ;;
  if C_int (ret r) <? 0
  then Return (d, Some (createError "could not set rate params" (C_int (ret r)))) else
  let bufferSize := C_snd_pcm_uframes_t (BufferFrames bufferParams) in
  rb <- (if BufferFrames bufferParams =? 0
         then r <- C (snd_pcm_hw_params_get_buffer_size_max hwParams bufferSize) ;;
              Return (C_int (ret r), C_snd_pcm_uframes_t (out1 r))
         else Return (0, bufferSize)) ;;
  let bufferSize := snd rb in
  if fst rb <? 0
  then Return (d, Some (createError "could not get buffer size" (fst rb))) else
  r <- C (snd_pcm_hw_params_set_buffer_size_near (h d) hwParams bufferSize) ;;
  let bufferSize := C_snd_pcm_uframes_t (out1 r) in
  if C_int (ret r) <? 0
  then Return (d, Some (createError "could not set buffer size" (C_int (ret r)))) else
  let periodFrames := requested_period rate bufferParams bufferSize in
  r <- C (snd_pcm_hw_params_set_period_size_near (h d) hwParams periodFrames) ;;
  let periodFrames := C_snd_pcm_uframes_t (out1 r) in
  if C_int (ret r) <? 0
  then Return (d, Some (createError "could not set period size" (C_int (ret r)))) else
  r <- C (snd_pcm_hw_params_get_periods hwParams 0) ;;
  let periods := C_uint (out1 r) in
  if C_int (ret r) <? 0
  then Return (d, Some (createError "could not get periods" (C_int (ret r)))) else
  r <- C (snd_pcm_hw_params (h d) hwParams) ;;
  if C_int (ret r) <? 0
  then Return (d, Some (createError "could not set hw params" (C_int (ret r)))) else
  Return (mkDevice (h d) channels format rate
            (mkBufferParams (int bufferSize) (int periodFrames) (int periods))
            (int periodFrames) (finalizer d), None)).

(** [Close] has no result in this variant: the status of
    [snd_pcm_close] is dropped. *)
Definition Close (d : device) : M device :=
  if negb (is_nil (h d)) then
    _ <- C (snd_pcm_drain (h d)) ;;
    _ <- C (snd_pcm_close (h d)) ;;
    Return (SetFinalizer (set_h d NULL) false)
  else Return (SetFinalizer d false).


(** The mixer prologue of this variant: as in [alsa.go], but the
    [snd_mixer_selem_register] call is commented out in the source. *)
Definition with_mixer_element {A} (fail : error -> A)
    (k : ptr -> Z -> Z -> M A) : M A :=
  r <- C snd_mixer_open ;;
  let handle := outp r in
  if C_int (ret r) <? 0
  then Return (fail (createError "could not open mixer" (C_int (ret r)))) else
  deferred (snd_mixer_close handle) (
  _ <- C (snd_mixer_attach handle card) ;;
  r <- C (snd_mixer_load handle) ;;
  if C_int (ret r) <? 0
  then Return (fail (createError "could not load mixer handle" (C_int (ret r)))) else
  r <- C snd_mixer_selem_id_malloc ;;
  let sid := outp r in
  if C_int (ret r) <? 0
  then Return (fail (createError "could not allocate simple element pointer" (C_int (ret r)))) else
  deferred (snd_mixer_selem_id_free sid) (
  _ <- C (snd_mixer_selem_id_set_index sid 0) ;;
  _ <- C (snd_mixer_selem_id_set_name sid mixer) ;;
  r <- C (snd_mixer_find_selem handle sid) ;;
  let elem := outp r in
  r <- C (snd_mixer_selem_get_playback_volume_range elem) ;;
  let min := C_long (out1 r) in
  let max := C_long (out2 r) in
  if C_int (ret r) <? 0
  then Return (fail (createError "could not get simple element volume range" (C_int (ret r)))) else
  k elem min max)).

Definition SetMasterVolume (d : device) (volume : Z) : M (option error) :=
  with_mixer_element Some (fun elem min max =>
    let vol := C_long volume in
    r <- C (snd_mixer_selem_set_playback_volume_all elem
              (C_long (Z.quot (C_long (vol * max)) 100))) ;;
    if C_int (ret r) <? 0
    then Return (Some (createError "could not set playback volume" (C_int (ret r))))
    else Return None).

Definition GetMasterVolume (d : device) : M (Z * option error) :=
  with_mixer_element (fun e => (0, Some e)) (fun elem min max =>
    r <- C (snd_mixer_selem_get_playback_volume elem) ;;
    let outvol := C_long (out1 r) in
    if C_int (ret r) <? 0
    then Return (0, Some (createError "could not get playback volume" (C_int (ret r)))) else
    let outvol := C_long (outvol - min) in
    let max := C_long (max - min) in
    match quo (C_long (100 * outvol)) max with
    | None => throw divide_by_zero
    | Some outvol => Return (int outvol, None)
    end).

(** [Read] and [Write] differ in the transfer call, the sentinel error
    and the three message texts only.  In order: [reflect.TypeOf(buffer)]
    is a nil [Type] for a nil interface, and [Kind()] on it dereferences
    nil; the kind must be array or slice; the element kind is checked
    against [formatSampleSize]; [val.Slice(0, length)] panics on an array,
    which is never addressable when it comes out of an [interface{}];
    [length / c.Channels]; [sliceData.Index(0)]; the transfer. *)
Definition transfer (xfer : ptr -> Z -> call) (pipe : error)
    (not_array unsupported msg : string)
    (d : device) (buffer : option reflect.Value) : M (Z * option error) :=
  match buffer with
  | None => throw nil_dereference
  | Some v =>
      if negb (reflect.is_Array (reflect.kind v) || reflect.is_Slice (reflect.kind v))
      then Return (0, Some (errors_New not_array)) else
      match check_elem d (reflect.elem v) unsupported with
      | Panic p => throw p
      | Done (Some e) => Return (0, Some e)
      | Done None =>
          let length := Z.of_nat (reflect.len v) in
          if reflect.is_Array (reflect.kind v)
          then throw slice_of_unaddressable_array else
          match quo length (Channels d) with
          | None => throw divide_by_zero
          | Some q =>
              let frames := C_snd_pcm_uframes_t q in
              if length =? 0 then throw index_out_of_range else
              r <- C (xfer (h d) frames) ;;
              let n := C_long (ret r) in
              if n =? - EPIPE then
                _ <- C (snd_pcm_prepare (h d)) ;;
                Return (0, Some pipe)
              else if n <? 0 then
                Return (0, Some (createError msg (C_int n)))
              else Return (int (int n * Channels d), None)
          end
      end
  end.

Definition Read (c : device) (buffer : option reflect.Value) : M (Z * option error) :=
  transfer snd_pcm_readi ErrOverrun
    "Read requires an array type" "Unsupported sample format" "read error"
    c buffer.

Definition Write (p : device) (buffer : option reflect.Value) : M (Z * option error) :=
  transfer snd_pcm_writei ErrUnderrun
    "Write requires an array type" "Write does not support this format" "write error"
    p buffer.

Definition Drop (p : device) : M (option error) :=
  r <- C (snd_pcm_drop (h p)) ;;
  if C_int (ret r) <? 0
  then Return (Some (createError "Could not drop the stream" (C_int (ret r))))
  else Return None.

Definition NewCaptureDevice (deviceName : string) (channels format rate : Z)
    (bufferParams : BufferParams) : M (option device * option error) :=
  r <- createDevice new_device deviceName channels format rate false bufferParams ;;
  match snd r with
  | Some err => Return (None, Some err)
  | None => Return (Some (fst r), None)
  end.

Definition NewPlaybackDevice (deviceName : string) (channels format rate : Z)
    (bufferParams : BufferParams) : M (option device * option error) :=
  r <- createDevice new_device deviceName channels format rate true bufferParams ;;
  match snd r with
  | Some err => Return (None, Some err)
  | None => Return (Some (fst r), None)
  end.

End Code.

End Generic.

(** ** Backends to run the code on *)

Definition ok : response := Response 0 0 0 1%N.

(** A backend without memory: the answer depends on the call alone. *)
Definition stateless (answer : call -> response) : unit -> call -> response * unit :=
  fun w c => (answer c, w).

(** Every call succeeds. *)
Definition agreeable : unit -> call -> response * unit :=
  stateless (fun _ => ok).

(** Every transfer is answered with [-EPIPE]. *)
Definition starved : unit -> call -> response * unit :=
  stateless (fun c => if is_transfer c then Response (- EPIPE) 0 0 0%N else ok).

(** [snd_pcm_close] fails with [-EBADFD]. *)
Definition failing_close : unit -> call -> response * unit :=
  stateless (fun c =>
    match c with
    | snd_pcm_close _ => Response (-77) 0 0 0%N
    | _ => ok
    end).

(** Accepts whatever buffer and period size it is asked for (the maximum
    buffer is 8192 frames) and reports 4 periods. *)
Definition obliging_layout : unit -> call -> response * unit :=
  stateless (fun c =>
    match c with
    | snd_pcm_hw_params_get_buffer_size_max _ _ => Response 0 8192 0 0%N
    | snd_pcm_hw_params_set_buffer_size_near _ _ v => Response 0 v 0 0%N
    | snd_pcm_hw_params_set_period_size_near _ _ v => Response 0 v 0 0%N
    | snd_pcm_hw_params_get_periods _ _ => Response 0 4 0 0%N
    | _ => ok
    end).

(** A mixer element that stores the native value it is set to and hands it
    back unchanged. *)
Record mixer_element : Type := mkElement {
  native_min : Z;
  native_max : Z;
  native_volume : Z
}.

Definition storing_mixer (m : mixer_element) (c : call) : response * mixer_element :=
  match c with
  | snd_mixer_selem_get_playback_volume_range _ =>
      (Response 0 (native_min m) (native_max m) 0%N, m)
  | snd_mixer_selem_set_playback_volume_all _ v =>
      (ok, mkElement (native_min m) (native_max m) v)
  | snd_mixer_selem_get_playback_volume _ =>
      (Response 0 (native_volume m) 0 0%N, m)
  | _ => (ok, m)
  end.

(** The native values a run handed to [snd_mixer_selem_set_playback_volume_all]. *)
Fixpoint applied_volumes (t : list event) : list Z :=
  match t with
  | [] => []
  | Ev (snd_mixer_selem_set_playback_volume_all _ v) _ :: t => v :: applied_volumes t
  | _ :: t => applied_volumes t
  end.

(** The answers a run got to the calls [sel] picks, in order. *)
Definition answers (sel : call -> bool) (t : list event) : list response :=
  map ev_resp (filter (fun e => sel (ev_call e)) t).

Definition is_set_buffer_size_near (c : call) : bool :=
  match c with snd_pcm_hw_params_set_buffer_size_near _ _ _ => true | _ => false end.

Definition is_set_period_size_near (c : call) : bool :=
  match c with snd_pcm_hw_params_set_period_size_near _ _ _ => true | _ => false end.

Definition is_get_periods (c : call) : bool :=
  match c with snd_pcm_hw_params_get_periods _ _ => true | _ => false end.

(** The period lengths a run asked [snd_pcm_hw_params_set_period_size_near] for. *)
Fixpoint period_requests (t : list event) : list Z :=
  match t with
  | [] => []
  | Ev (snd_pcm_hw_params_set_period_size_near _ _ v) _ :: t => v :: period_requests t
  | _ :: t => period_requests t
  end.

(** The calls of a run, without the answers. *)
Definition calls (t : list event) : list call := map ev_call t.

(** [SetMasterVolume(p)] immediately followed by [GetMasterVolume()] on a
    storing mixer element with the given range. *)
Definition alsa_round_trip (min max p : Z) : outcome (Z * option error) :=
  let m := mkElement min max min in
  let set := Alsa.SetMasterVolume storing_mixer Alsa.new_device p m in
  match result set with
  | Done None => result (Alsa.GetMasterVolume storing_mixer Alsa.new_device (world set))
  | Done (Some e) => Done (0, Some e)
  | Panic x => Panic x
  end.

(** ** Vocabulary of the properties *)

(** The backend answered the range query of a run successfully with [min]
    and [max]. *)
Definition reports_range (t : list event) (min max : Z) : Prop :=
  exists elem r,
    In (Ev (snd_mixer_selem_get_playback_volume_range elem) r) t
    /\ 0 <= C_int (ret r) /\ C_long (out1 r) = min /\ C_long (out2 r) = max.

(** The element kinds the [switch] of the generic [Read] and [Write] has a
    size case for. *)
Definition sized_kind (k : reflect.Kind) : bool :=
  match k with
  | reflect.Int8 | reflect.Int16 | reflect.Int32 | reflect.Float32 | reflect.Float64 => true
  | _ => false
  end.

Definition is_container (k : reflect.Kind) : bool :=
  reflect.is_Array k || reflect.is_Slice k.

(** The native value [alsa.go] computes for [volume] percent of the range
    [[min, max]], and the percentage it computes back from a native value. *)
Definition alsa_native (min max volume : Z) : Z :=
  C_long (Z.quot (C_long (C_long volume * C_long (max - min))) 100 + min).

Definition alsa_percent (min max outvol : Z) : option Z :=
  quo (C_long (100 * C_long (outvol - min))) (C_long (max - min)).

(** ** Vocabulary of the further properties *)

(** The last call of a run. *)
Definition last_call (t : list event) : option call :=
  match rev t with
  | [] => None
  | e :: _ => Some (ev_call e)
  end.

(** How many of the calls of a run [sel] picks. *)
Definition count_calls (sel : call -> bool) (t : list event) : nat :=
  List.length (filter (fun e => sel (ev_call e)) t).

Definition is_pcm_open (c : call) : bool :=
  match c with snd_pcm_open _ _ _ => true | _ => false end.

Definition is_pcm_close (c : call) : bool :=
  match c with snd_pcm_close _ => true | _ => false end.

Definition is_hw_params_malloc (c : call) : bool :=
  match c with snd_pcm_hw_params_malloc => true | _ => false end.

Definition is_hw_params_free (c : call) : bool :=
  match c with snd_pcm_hw_params_free _ => true | _ => false end.

Definition is_mixer_open (c : call) : bool :=
  match c with snd_mixer_open => true | _ => false end.

Definition is_mixer_close (c : call) : bool :=
  match c with snd_mixer_close _ => true | _ => false end.

Definition is_selem_id_malloc (c : call) : bool :=
  match c with snd_mixer_selem_id_malloc => true | _ => false end.

Definition is_selem_id_free (c : call) : bool :=
  match c with snd_mixer_selem_id_free _ => true | _ => false end.

Definition is_get_playback_volume (c : call) : bool :=
  match c with snd_mixer_selem_get_playback_volume _ => true | _ => false end.

(** A run of [Read] or [Write] that got as far as its transfer call [xfer]
    for a buffer of [len] samples on [channels] channels: what it returns for
    the status [n] the backend answered with, other than [-EPIPE]. *)
Definition transfers {W : Type} (run : outcome (Z * option error) * W * list event)
    (xfer : call) (len channels : Z) (msg : string) : Prop :=
  exists r rest,
    trace run = Ev xfer r :: rest
    /\ (0 <= C_long (ret r) ->
        result run = Done (int (int (C_long (ret r)) * channels), None) /\ rest = [])
    /\ (0 <= C_long (ret r) <= len / channels ->
        result run = Done (C_long (ret r) * channels, None)
        /\ 0 <= C_long (ret r) * channels <= len)
    /\ (C_long (ret r) < 0 -> C_long (ret r) <> - EPIPE ->
        result run = Done (0, Some (createError msg (C_int (C_long (ret r))))) /\ rest = []).

Definition is_get_buffer_size_max (c : call) : bool :=
  match c with snd_pcm_hw_params_get_buffer_size_max _ _ => true | _ => false end.

(** The calls of a successful negotiation, in order, given the answers of
    the run [t] that later arguments depend on: the stream handle and the
    descriptor come from [snd_pcm_open] and [snd_pcm_hw_params_malloc], the
    buffer size asked for is the hint's or, for a hint of 0, the maximum the
    backend reported, and the period size asked for depends on the buffer size
    the backend settled on. *)
Definition negotiation_calls (old : ptr) (deviceName : string) (playback : bool)
    (format channels rate : Z) (hint : BufferParams) (t : list event) : list call :=
  match answers is_pcm_open t, answers is_hw_params_malloc t,
        answers is_set_buffer_size_near t with
  | [ro], [rm], [rb] =>
      let pcm := outp ro in
      let hw := outp rm in
      [ snd_pcm_open old deviceName playback;
        snd_pcm_hw_params_malloc;
        snd_pcm_hw_params_any pcm hw;
        snd_pcm_hw_params_set_access pcm hw;
        snd_pcm_hw_params_set_format pcm hw format;
        snd_pcm_hw_params_set_channels pcm hw (C_uint channels);
        snd_pcm_hw_params_set_rate pcm hw (C_uint rate) ]
      ++ (if BufferFrames hint =? 0
          then match answers is_get_buffer_size_max t with
               | [rmax] =>
                   [ snd_pcm_hw_params_get_buffer_size_max hw
                       (C_snd_pcm_uframes_t (BufferFrames hint));
                     snd_pcm_hw_params_set_buffer_size_near pcm hw
                       (C_snd_pcm_uframes_t (out1 rmax)) ]
               | _ => []
               end
          else [ snd_pcm_hw_params_set_buffer_size_near pcm hw
                   (C_snd_pcm_uframes_t (BufferFrames hint)) ])
      ++ [ snd_pcm_hw_params_set_period_size_near pcm hw
             (requested_period rate hint (C_snd_pcm_uframes_t (out1 rb)));
           snd_pcm_hw_params_get_periods hw 0;
           snd_pcm_hw_params pcm hw;
           snd_pcm_hw_params_free hw ]
  | _, _, _ => []
  end.

(** The text the negotiation attaches to the error of each step. *)
Definition negotiation_step_message (c : call) : option string :=
  match c with
  | snd_pcm_hw_params_malloc => Some "could not alloc hw params"%string
  | snd_pcm_hw_params_any _ _ => Some "could not set default hw params"%string
  | snd_pcm_hw_params_set_access _ _ => Some "could not set access params"%string
  | snd_pcm_hw_params_set_format _ _ _ => Some "could not set format params"%string
  | snd_pcm_hw_params_set_channels _ _ _ => Some "could not set channels params"%string
  | snd_pcm_hw_params_set_rate _ _ _ => Some "could not set rate params"%string
  | snd_pcm_hw_params_get_buffer_size_max _ _ => Some "could not get buffer size"%string
  | snd_pcm_hw_params_set_buffer_size_near _ _ _ => Some "could not set buffer size"%string
  | snd_pcm_hw_params_set_period_size_near _ _ _ => Some "could not set period size"%string
  | snd_pcm_hw_params_get_periods _ _ => Some "could not get periods"%string
  | snd_pcm_hw_params _ _ => Some "could not set hw params"%string
  | _ => None
  end.

(** The last event of a run before the deferred release of the
    descriptor. *)
Definition last_before_cleanup (t : list event) : option event :=
  hd_error (rev (filter (fun e => negb (is_hw_params_free (ev_call e))) t)).

(** A backend that turns down every sample format with [-EINVAL]. *)
Definition rejects_format : unit -> call -> response * unit :=
  stateless (fun c =>
    match c with
    | snd_pcm_hw_params_set_format _ _ _ => Response (-22) 0 0 0%N
    | _ => ok
    end).

(** A caller of [alsa.go] that opens a playback device and, when that
    worked, closes it twice; it keeps the device as the second [Close] left
    it and the results of both. *)
Definition alsa_open_close_close {W : Type} (backend : W -> call -> response * W)
    (deviceName : string) (audio : option Alsa.AudioParams) (hint : BufferParams)
    : M (option (Alsa.device * option error * option error)) :=
  (r <- Alsa.NewPlaybackDevice backend deviceName audio hint ;;
   match fst r with
   | None => Return None
   | Some p =>
       c1 <- Alsa.Close backend p ;;
       c2 <- Alsa.Close backend (fst c1) ;;
       Return (Some (fst c2, snd c1, snd c2))
   end)%go.

(** The same caller of the generic variant, whose [Close] has no result. *)
Definition generic_open_close_close {W : Type} (backend : W -> call -> response * W)
    (deviceName : string) (channels format rate : Z) (hint : BufferParams)
    : M (option Generic.device) :=
  (r <- Generic.NewPlaybackDevice backend deviceName channels format rate hint ;;
   match fst r with
   | None => Return None
   | Some p =>
       c1 <- Generic.Close backend p ;;
       c2 <- Generic.Close backend c1 ;;
       Return (Some c2)
   end)%go.

(** What a run of a volume function owes the mixer: a mixer handle that was
    opened is closed by the last call of the run, exactly once; when the open
    failed it is the only call; an element identifier that was allocated is
    freed exactly once. *)
Definition mixer_released (t : list event) : Prop :=
  (exists ro,
      answers is_mixer_open t = [ro]
      /\ (0 <= C_int (ret ro) ->
          last_call t = Some (snd_mixer_close (outp ro))
          /\ count_calls is_mixer_close t = 1%nat)
      /\ (C_int (ret ro) < 0 -> calls t = [snd_mixer_open]))
  /\ (forall rs,
        answers is_selem_id_malloc t = [rs] -> 0 <= C_int (ret rs) ->
        count_calls is_selem_id_free t = 1%nat
        /\ In (snd_mixer_selem_id_free (outp rs)) (calls t))
  /\ (answers is_selem_id_malloc t = [] -> count_calls is_selem_id_free t = 0%nat).

(** A range the volume arithmetic of the source handles without wrapping:
    both ends within [-2^62, 2^62] and the hundredfold width within a C
    [long]. *)
Definition modest_range (min max : Z) : Prop :=
  - 2 ^ 62 <= min /\ min <= max /\ max <= 2 ^ 62 /\ 100 * (max - min) < 2 ^ 63.

(** [GetMasterVolume()] followed by [SetMasterVolume] of the percentage it
    returned, on a storing mixer element [m]: the element afterwards. *)
Definition alsa_get_then_set (m : mixer_element) : outcome mixer_element :=
  let get := Alsa.GetMasterVolume storing_mixer Alsa.new_device m in
  match result get with
  | Done (p, None) =>
      let set := Alsa.SetMasterVolume storing_mixer Alsa.new_device p (world get) in
      match result set with
      | Done None => Done (world set)
      | Done (Some _) => Done (world get)
      | Panic x => Panic x
      end
  | Done (_, Some _) => Done (world get)
  | Panic x => Panic x
  end.

(** What a constructor hands back: a device and no error, with the finalizer
    registered and the handle the backend opened, or no device and an error;
    and the direction it opened the stream in on a nil handle slot. *)
Definition constructs {W D : Type} (run : outcome (option D * option error) * W * list event)
    (h : D -> ptr) (finalizer : D -> bool) (deviceName : string) (playback : bool) : Prop :=
  hd_error (calls (trace run)) = Some (snd_pcm_open NULL deviceName playback)
  /\ count_calls is_pcm_open (trace run) = 1%nat
  /\ count_calls is_pcm_close (trace run) = 0%nat
  /\ forall od oe,
       result run = Done (od, oe) ->
       (od = None /\ oe <> None)
       \/ (exists d', od = Some d' /\ oe = None /\ finalizer d' = true
                      /\ map outp (answers is_pcm_open (trace run)) = [h d']).

(** The mixer calls whose status the volume functions test. *)
Definition mixer_status_checked (c : call) : bool :=
  match c with
  | snd_mixer_open
  | snd_mixer_selem_register _
  | snd_mixer_load _
  | snd_mixer_selem_id_malloc
  | snd_mixer_selem_get_playback_volume_range _
  | snd_mixer_selem_get_playback_volume _ => true
  | _ => false
  end.

(** Every call of [backend] that [sel] picks is answered with a status that
    is not negative, in whatever state the backend is. *)
Definition always_accepts {W : Type} (backend : W -> call -> response * W)
    (sel : call -> bool) : Prop :=
  forall w c, sel c = true -> 0 <= C_int (ret (fst (backend w c))).

(** Every range query of [backend] is answered with a minimum equal to the
    maximum. *)
Definition always_empty_range {W : Type} (backend : W -> call -> response * W) : Prop :=
  forall w elem,
    C_long (out1 (fst (backend w (snd_mixer_selem_get_playback_volume_range elem))))
    = C_long (out2 (fst (backend w (snd_mixer_selem_get_playback_volume_range elem)))).

(** Reports the range [[5, 5]] and then fails the volume query with
    [-EINVAL]. *)
Definition empty_range_failing_volume : unit -> call -> response * unit :=
  stateless (fun c =>
    match c with
    | snd_mixer_selem_get_playback_volume_range _ => Response 0 5 5 0%N
    | snd_mixer_selem_get_playback_volume _ => Response (-22) 0 0 0%N
    | _ => ok
    end).

(** Accepts every call, reports the range [[5, 5]] and the native volume 5. *)
Definition empty_range_mixer : unit -> call -> response * unit :=
  stateless (fun c =>
    match c with
    | snd_mixer_selem_get_playback_volume_range _ => Response 0 5 5 0%N
    | snd_mixer_selem_get_playback_volume _ => Response 0 5 0 0%N
    | _ => ok
    end).

(** The steps of the negotiation whose status is tested before the period
    size is asked for. *)
Definition before_period_request (c : call) : bool :=
  match c with
  | snd_pcm_open _ _ _
  | snd_pcm_hw_params_malloc
  | snd_pcm_hw_params_any _ _
  | snd_pcm_hw_params_set_access _ _
  | snd_pcm_hw_params_set_format _ _ _
  | snd_pcm_hw_params_set_channels _ _ _
  | snd_pcm_hw_params_set_rate _ _ _
  | snd_pcm_hw_params_get_buffer_size_max _ _
  | snd_pcm_hw_params_set_buffer_size_near _ _ _ => true
  | _ => false
  end.

(** All the steps of the negotiation whose status is tested. *)
Definition negotiation_step (c : call) : bool :=
  match c with
  | snd_pcm_hw_params_set_period_size_near _ _ _
  | snd_pcm_hw_params_get_periods _ _
  | snd_pcm_hw_params _ _ => true
  | _ => before_period_request c
  end.

(** The backend's side of the layout, as far as a run shows it: the period
    size it settled on is at most the buffer size it settled on (a buffer is a
    whole number of periods), and the buffer size is one a Go [int] holds. *)
Definition layout_contract (t : list event) : Prop :=
  forall rb rp,
    In rb (answers is_set_buffer_size_near t) ->
    In rp (answers is_set_period_size_near t) ->
    C_snd_pcm_uframes_t (out1 rp) <= C_snd_pcm_uframes_t (out1 rb) < 2 ^ 63.

(** * Properties *)

(** ** Symbolic execution *)

Arguments wrap_signed : simpl never.
Arguments wrap_unsigned : simpl never.
Arguments C_int : simpl never.
Arguments C_long : simpl never.
Arguments C_uint : simpl never.
Arguments C_snd_pcm_uframes_t : simpl never.
Arguments int : simpl never.
Arguments quo : simpl never.
Arguments requested_period : simpl never.
Arguments Z.quot : simpl never.
Arguments Z.mul : simpl never.
Arguments Z.add : simpl never.
Arguments Z.sub : simpl never.
Arguments Z.opp : simpl never.
Arguments Z.pow : simpl never.
Arguments Z.ltb : simpl never.
Arguments Z.gtb : simpl never.
Arguments Z.eqb : simpl never.

(** Runs the monadic code in the goal one backend call or one branch at a
    time. *)
Ltac run1 :=
  match goal with
  | |- context [match ?b ?w ?c with pair _ _ => _ end] =>
      let r := fresh "r" in
      let w1 := fresh "w" in
      let E := fresh "Ecall" in
      destruct (b w c) as [r w1] eqn:E
  | |- context [if ?b then _ else _] =>
      let E := fresh "Eif" in destruct b eqn:E
  | |- context [match ?x with Some _ => _ | None => _ end] =>
      let E := fresh "Eopt" in destruct x eqn:E
  end.

Ltac run := repeat (simpl; run1); simpl.

(** The same on a hypothesis. *)
Ltac run1_in H :=
  match type of H with
  | context [match ?b ?w ?c with pair _ _ => _ end] =>
      let r := fresh "r" in
      let w1 := fresh "w" in
      let E := fresh "Ecall" in
      destruct (b w c) as [r w1] eqn:E
  | context [if ?b then _ else _] =>
      let E := fresh "Eif" in destruct b eqn:E
  | context [match ?x with Some _ => _ | None => _ end] =>
      let E := fresh "Eopt" in destruct x eqn:E
  end.

Ltac run_in H := repeat (simpl in H; run1_in H); simpl in H.

(** Decides membership of an event in a trace that is an explicit list. *)
Ltac which_event H :=
  simpl in H;
  repeat match type of H with
         | _ \/ _ => destruct H as [H | H]
         | False => contradiction
         | Ev _ _ = Ev _ _ => first [ discriminate H | injection H as ? ?; subst ]
         end.

Lemma wrap_signed_small (z : Z) : - 2 ^ 63 <= z < 2 ^ 63 -> wrap_signed 64 z = z.
Proof.
  intros Hz. unfold wrap_signed.
  change (2 ^ (64 - 1)) with 9223372036854775808 in *.
  change (2 ^ 63) with 9223372036854775808 in *.
  change (2 ^ 64) with 18446744073709551616.
  rewrite Z.mod_small; lia.
Qed.

Lemma wrap_unsigned_small (z : Z) : 0 <= z < 2 ^ 64 -> wrap_unsigned 64 z = z.
Proof. intros Hz. unfold wrap_unsigned. apply Z.mod_small. exact Hz. Qed.

Lemma wrap_unsigned_range (bits z : Z) : 0 <= bits -> 0 <= wrap_unsigned bits z < 2 ^ bits.
Proof.
  intros Hb. unfold wrap_unsigned. apply Z.mod_pos_bound. apply Z.pow_pos_nonneg; lia.
Qed.

(** ** Lifecycle *)

(** C3.  Once [Close] has succeeded the handle is nil, and a further
    [Close] of the device it left behind returns no error, makes no backend
    call at all (so no second [snd_pcm_close]) and leaves device and world as
    they were; the device being unchanged, the same holds for every later
    call.  Both variants. *)
Theorem Close_after_Close_is_noop :
  (forall (W : Type) (backend : W -> call -> response * W)
          (d d' : Alsa.device) (w w' : W) (t : list event),
      Alsa.Close backend d w = (Done (d', None), w', t) ->
      Alsa.h d' = NULL /\
      forall w2, Alsa.Close backend d' w2 = (Done (d', None), w2, []))
  /\
  (forall (W : Type) (backend : W -> call -> response * W)
          (d d' : Generic.device) (w w' : W) (t : list event),
      Generic.Close backend d w = (Done d', w', t) ->
      Generic.h d' = NULL /\
      forall w2, Generic.Close backend d' w2 = (Done d', w2, [])).
Proof.
  split; intros W backend d d' w w' t H.
  - unfold Alsa.Close, bind, cgo, Return in H. destruct d as [h a b f fin].
    run_in H; try discriminate H; injection H as <- <- <-.
    + split; reflexivity.
    + apply negb_false_iff, N.eqb_eq in Eif. simpl in Eif. subst h.
      split; reflexivity.
  - unfold Generic.Close, bind, cgo, Return in H. destruct d as [h c f r b fr fin].
    run_in H; injection H as <- <- <-.
    + split; reflexivity.
    + apply negb_false_iff, N.eqb_eq in Eif. simpl in Eif. subst h.
      split; reflexivity.
Qed.

Lemma Close_after_Close_is_noop_witness :
  Alsa.Close agreeable (Alsa.mkDevice 7%N None (mkBufferParams 0 0 0) 0 true) tt
  = (Done (Alsa.mkDevice NULL None (mkBufferParams 0 0 0) 0 false, None), tt,
     [Ev (snd_pcm_drain 7%N) ok; Ev (snd_pcm_close 7%N) ok])
  /\ Alsa.h (Alsa.mkDevice NULL None (mkBufferParams 0 0 0) 0 false) = NULL
  /\ Alsa.Close agreeable (Alsa.mkDevice NULL None (mkBufferParams 0 0 0) 0 false) tt
     = (Done (Alsa.mkDevice NULL None (mkBufferParams 0 0 0) 0 false, None), tt, []).
Proof.
  split; [reflexivity|].
  destruct (proj1 Close_after_Close_is_noop unit agreeable
              (Alsa.mkDevice 7%N None (mkBufferParams 0 0 0) 0 true)
              (Alsa.mkDevice NULL None (mkBufferParams 0 0 0) 0 false) tt tt
              [Ev (snd_pcm_drain 7%N) ok; Ev (snd_pcm_close 7%N) ok] eq_refl)
    as [Hnil Hagain].
  split; [exact Hnil | exact (Hagain tt)].
Defined.

(** In [alsa.go] a failed [snd_pcm_close] leaves the device exactly as it
    was: the early [return] comes before [d.h = nil] and before the finalizer
    is cleared. *)
Lemma Alsa_Close_error_keeps_device
    (W : Type) (backend : W -> call -> response * W)
    (d d' : Alsa.device) (e : error) (w : W) :
  result (Alsa.Close backend d w) = Done (d', Some e) ->
  d' = d /\ Alsa.h d' <> NULL /\
  exists r, In (Ev (snd_pcm_close (Alsa.h d)) r) (trace (Alsa.Close backend d w))
            /\ C_int (ret r) < 0.
Proof.
  unfold Alsa.Close, bind, cgo, Return, result, trace. intros H.
  run_in H; try discriminate H; injection H as <- <-.
  apply negb_true_iff, N.eqb_neq in Eif.
  split; [reflexivity | split; [exact Eif |]].
  exists r0. simpl. split; [auto | lia].
Qed.

(** C8.  A device with an open handle, closed on a backend whose
    [snd_pcm_close] fails.  [alsa.go] reports the failure but returns with
    the handle still set and the finalizer still registered; the generic
    variant clears the handle and the finalizer but has no error result to
    report the failure through. *)
Theorem Close_failure_at_failing_close :
  let d := Alsa.mkDevice 7%N None (mkBufferParams 0 0 0) 0 true in
  let g := Generic.mkDevice 7%N 2 Format.S16LE 44100 (mkBufferParams 0 0 0) 0 true in
  Alsa.Close failing_close d tt
  = (Done (d, Some (createError "Error closing device handle" (-77))), tt,
     [Ev (snd_pcm_drain 7%N) ok; Ev (snd_pcm_close 7%N) (Response (-77) 0 0 0%N)])
  /\ Alsa.h d <> NULL
  /\ Generic.Close failing_close g tt
     = (Done (Generic.mkDevice NULL 2 Format.S16LE 44100 (mkBufferParams 0 0 0) 0 false), tt,
        [Ev (snd_pcm_drain 7%N) ok; Ev (snd_pcm_close 7%N) (Response (-77) 0 0 0%N)]).
Proof.
  repeat split; try reflexivity. discriminate.
Qed.

(** ** Volume *)

(** C1.  A native range that does not start at zero, [10, 110], and 50
    percent: the claimed native value is [10 + 50*(110-10)/100 = 60].
    [alsa.go] applies 60; the generic variant computes [vol*max/100] without
    the minimum and applies 55. *)
Theorem SetMasterVolume_at_offset_range :
  10 + 50 * (110 - 10) / 100 = 60
  /\ applied_volumes
       (trace (Alsa.SetMasterVolume storing_mixer Alsa.new_device 50 (mkElement 10 110 10)))
     = [60]
  /\ applied_volumes
       (trace (Generic.SetMasterVolume storing_mixer Generic.new_device 50 (mkElement 10 110 10)))
     = [55].
Proof.
  repeat split; reflexivity.
Qed.

Lemma quo_zero (a : Z) : quo a 0 = None.
Proof. reflexivity. Qed.

Lemma C_long_diag (m : Z) : C_long (m - m) = 0.
Proof. rewrite Z.sub_diag. reflexivity. Qed.

Ltac unfold_go :=
  unfold bind, cgo, defer, Return, throw, result, trace, world.

(** Closes a branch in which a call the backend always accepts was answered
    with a negative status. *)
Ltac refute_rejection Hok :=
  match goal with
  | E : (C_int (ret ?r) <? 0) = true, Ec : ?b ?w ?c = (?r, _) |- _ =>
      let H := fresh "H" in
      pose proof (Hok w c eq_refl) as H; rewrite Ec in H; simpl in H;
      apply Z.ltb_lt in E; exfalso; lia
  end.

(** C9 as stated fails when the volume query that follows the range query
    fails: on a backend that reports the range [[5, 5]] and then turns the
    volume query down, [GetMasterVolume] returns the error of that step in
    both variants and does not panic; the status of the volume query is tested
    before the division. *)
Lemma empty_range_without_panic :
  result (Alsa.GetMasterVolume empty_range_failing_volume Alsa.new_device tt)
  = Done (0, Some (createError "could not get playback volume" (-22)))
  /\ result (Generic.GetMasterVolume empty_range_failing_volume Generic.new_device tt)
     = Done (0, Some (createError "could not get playback volume" (-22)))
  /\ reports_range
       (trace (Alsa.GetMasterVolume empty_range_failing_volume Alsa.new_device tt)) 5 5
  /\ reports_range
       (trace (Generic.GetMasterVolume empty_range_failing_volume Generic.new_device tt)) 5 5.
Proof.
  split; [reflexivity |]. split; [reflexivity |].
  split; exists 1%N, (Response 0 5 5 0%N);
    (split; [simpl; auto 20 | split; [vm_compute; discriminate | split; reflexivity]]).
Qed.

Ltac empty_range_case Hrange :=
  unfold_go; run;
  (split;
   [ intros v Hres; try discriminate Hres;
     match goal with
     | E : quo _ _ = Some _, Ec : ?b ?w (snd_mixer_selem_get_playback_volume_range ?e) = _
       |- _ =>
         let H := fresh "H" in
         pose proof (Hrange w e) as H; rewrite Ec in H; simpl in H;
         rewrite H, C_long_diag, quo_zero in E; discriminate E
     end
   | intros Hok; first [ reflexivity | refute_rejection Hok
                       | match goal with
                         | E : quo _ _ = Some _,
                           Ec : ?b ?w (snd_mixer_selem_get_playback_volume_range ?e) = _
                           |- _ =>
                             let H := fresh "H" in
                             pose proof (Hrange w e) as H; rewrite Ec in H; simpl in H;
                             rewrite H, C_long_diag, quo_zero in E; discriminate E
                         end ] ]).

(** C9, amended.  On a backend whose range query reports a minimum equal to
    the maximum, [GetMasterVolume] never returns a percentage; and when the
    backend moreover accepts the calls whose status the function tests - the
    volume query after the range query among them - the call reaches the
    unguarded division [100 * outvol / (max - min)] and panics with a division
    by zero instead of returning an error.  Both variants. *)
Theorem GetMasterVolume_empty_range_panics
    (W : Type) (backend : W -> call -> response * W) (w : W) :
  always_empty_range backend ->
  (forall d : Alsa.device,
      (forall v, result (Alsa.GetMasterVolume backend d w) <> Done (v, None))
      /\ (always_accepts backend mixer_status_checked ->
          result (Alsa.GetMasterVolume backend d w) = Panic divide_by_zero))
  /\
  (forall d : Generic.device,
      (forall v, result (Generic.GetMasterVolume backend d w) <> Done (v, None))
      /\ (always_accepts backend mixer_status_checked ->
          result (Generic.GetMasterVolume backend d w) = Panic divide_by_zero)).
Proof.
  intros Hrange. unfold always_empty_range in Hrange. unfold always_accepts.
  split; intros d.
  - unfold Alsa.GetMasterVolume, Alsa.with_mixer_element. empty_range_case Hrange.
  - unfold Generic.GetMasterVolume, Generic.with_mixer_element. empty_range_case Hrange.
Qed.

Lemma GetMasterVolume_empty_range_panics_witness :
  result (Alsa.GetMasterVolume empty_range_mixer Alsa.new_device tt)
  = Panic divide_by_zero
  /\ result (Generic.GetMasterVolume empty_range_mixer Generic.new_device tt)
     = Panic divide_by_zero.
Proof.
  assert (Hrange : always_empty_range empty_range_mixer).
  { intros w elem. reflexivity. }
  assert (Hok : always_accepts empty_range_mixer mixer_status_checked).
  { intros w c Hc. destruct c; try discriminate Hc; vm_compute; discriminate. }
  pose proof (GetMasterVolume_empty_range_panics unit empty_range_mixer tt Hrange)
    as [Ha Hg].
  split.
  - exact (proj2 (Ha Alsa.new_device) Hok).
  - exact (proj2 (Hg Generic.new_device) Hok).
Defined.

(** ** Transfer *)

Lemma Alsa_transfer_pipe
    (W : Type) (backend : W -> call -> response * W)
    (xfer : ptr -> Z -> call) (pipe : error) (msg : string)
    (d : Alsa.device) (a : Alsa.AudioParams) (buffer : list Byte.byte)
    (w w1 w2 : W) (q : Z) (r r' : response) :
  Alsa.Audio d = Some a ->
  buffer <> [] ->
  quo (Z.of_nat (List.length buffer)) (Alsa.Channels a) = Some q ->
  backend w (xfer (Alsa.h d) (C_snd_pcm_uframes_t q)) = (r, w1) ->
  C_long (ret r) = - EPIPE ->
  backend w1 (snd_pcm_prepare (Alsa.h d)) = (r', w2) ->
  Alsa.transfer backend xfer pipe msg d buffer w
  = (Done (0, Some pipe), w2,
     [Ev (xfer (Alsa.h d) (C_snd_pcm_uframes_t q)) r; Ev (snd_pcm_prepare (Alsa.h d)) r']).
Proof.
  intros Ha Hne Hq Hx Hpipe Hp.
  unfold Alsa.transfer. rewrite Ha, Hq.
  destruct buffer as [|b0 buffer]; [contradiction |].
  unfold_go. rewrite Hx. cbv iota beta.
  rewrite Hpipe, Z.eqb_refl. rewrite Hp. reflexivity.
Qed.

Lemma Generic_transfer_pipe
    (W : Type) (backend : W -> call -> response * W)
    (xfer : ptr -> Z -> call) (pipe : error) (not_array unsupported msg : string)
    (d : Generic.device) (v : reflect.Value)
    (w w1 w2 : W) (q : Z) (r r' : response) :
  reflect.kind v = reflect.Slice ->
  Generic.check_elem d (reflect.elem v) unsupported = Done None ->
  reflect.len v <> 0%nat ->
  quo (Z.of_nat (reflect.len v)) (Generic.Channels d) = Some q ->
  backend w (xfer (Generic.h d) (C_snd_pcm_uframes_t q)) = (r, w1) ->
  C_long (ret r) = - EPIPE ->
  backend w1 (snd_pcm_prepare (Generic.h d)) = (r', w2) ->
  Generic.transfer backend xfer pipe not_array unsupported msg d (Some v) w
  = (Done (0, Some pipe), w2,
     [Ev (xfer (Generic.h d) (C_snd_pcm_uframes_t q)) r;
      Ev (snd_pcm_prepare (Generic.h d)) r']).
Proof.
  intros Hk Hcheck Hlen Hq Hx Hpipe Hp.
  unfold Generic.transfer. rewrite Hk, Hcheck.
  change (negb (reflect.is_Array reflect.Slice || reflect.is_Slice reflect.Slice))
    with false.
  change (reflect.is_Array reflect.Slice) with false. cbv iota.
  rewrite Hq.
  destruct (Z.of_nat (reflect.len v) =? 0) eqn:Ez; [apply Z.eqb_eq in Ez; lia |].
  unfold_go. rewrite Hx. cbv iota beta.
  rewrite Hpipe, Z.eqb_refl. rewrite Hp. reflexivity.
Qed.

(** C2.  Whenever the backend answers the transfer call of a [Read] or a
    [Write] with [-EPIPE], the call re-arms the stream with
    [snd_pcm_prepare] on the same handle before it returns - the transfer and
    the prepare are its only two backend calls - and returns 0 samples with
    [ErrOverrun] (capture) or [ErrUnderrun] (playback), which is not the error
    any other negative status gives.  The call reaches the transfer for a
    non-empty buffer on a non-zero channel count (in the generic variant: a
    non-empty slice that passes the element checks).  Both variants. *)
Theorem pipe_condition_rearms_stream
    (W : Type) (backend : W -> call -> response * W)
    (w w1 w2 : W) (q : Z) (r r' : response) :
  C_long (ret r) = - EPIPE ->
  (forall (c : Alsa.device) (a : Alsa.AudioParams) (buffer : list Byte.byte),
      Alsa.Audio c = Some a ->
      buffer <> [] ->
      quo (Z.of_nat (List.length buffer)) (Alsa.Channels a) = Some q ->
      backend w1 (snd_pcm_prepare (Alsa.h c)) = (r', w2) ->
      (backend w (snd_pcm_readi (Alsa.h c) (C_snd_pcm_uframes_t q)) = (r, w1) ->
       Alsa.Read backend c buffer w
       = (Done (0, Some ErrOverrun), w2,
          [Ev (snd_pcm_readi (Alsa.h c) (C_snd_pcm_uframes_t q)) r;
           Ev (snd_pcm_prepare (Alsa.h c)) r']))
      /\
      (backend w (snd_pcm_writei (Alsa.h c) (C_snd_pcm_uframes_t q)) = (r, w1) ->
       Alsa.Write backend c buffer w
       = (Done (0, Some ErrUnderrun), w2,
          [Ev (snd_pcm_writei (Alsa.h c) (C_snd_pcm_uframes_t q)) r;
           Ev (snd_pcm_prepare (Alsa.h c)) r'])))
  /\
  (forall (c : Generic.device) (v : reflect.Value),
      reflect.kind v = reflect.Slice ->
      reflect.len v <> 0%nat ->
      quo (Z.of_nat (reflect.len v)) (Generic.Channels c) = Some q ->
      backend w1 (snd_pcm_prepare (Generic.h c)) = (r', w2) ->
      (Generic.check_elem c (reflect.elem v) "Unsupported sample format" = Done None ->
       backend w (snd_pcm_readi (Generic.h c) (C_snd_pcm_uframes_t q)) = (r, w1) ->
       Generic.Read backend c (Some v) w
       = (Done (0, Some ErrOverrun), w2,
          [Ev (snd_pcm_readi (Generic.h c) (C_snd_pcm_uframes_t q)) r;
           Ev (snd_pcm_prepare (Generic.h c)) r']))
      /\
      (Generic.check_elem c (reflect.elem v) "Write does not support this format"
       = Done None ->
       backend w (snd_pcm_writei (Generic.h c) (C_snd_pcm_uframes_t q)) = (r, w1) ->
       Generic.Write backend c (Some v) w
       = (Done (0, Some ErrUnderrun), w2,
          [Ev (snd_pcm_writei (Generic.h c) (C_snd_pcm_uframes_t q)) r;
           Ev (snd_pcm_prepare (Generic.h c)) r'])))
  /\ ErrOverrun <> createError "read error" (C_int (C_long (ret r)))
  /\ ErrUnderrun <> createError "write error" (C_int (C_long (ret r))).
Proof.
  intros Hpipe. split; [| split; [| split; discriminate]].
  - intros c a buffer Ha Hne Hq Hp. split; intros Hx.
    + apply (Alsa_transfer_pipe W backend snd_pcm_readi ErrOverrun "read error"
               c a buffer w w1 w2 q r r'); assumption.
    + apply (Alsa_transfer_pipe W backend snd_pcm_writei ErrUnderrun "write error"
               c a buffer w w1 w2 q r r'); assumption.
  - intros c v Hk Hlen Hq Hp. split; intros Hcheck Hx.
    + apply (Generic_transfer_pipe W backend snd_pcm_readi ErrOverrun
               "Read requires an array type" "Unsupported sample format" "read error"
               c v w w1 w2 q r r'); assumption.
    + apply (Generic_transfer_pipe W backend snd_pcm_writei ErrUnderrun
               "Write requires an array type" "Write does not support this format"
               "write error" c v w w1 w2 q r r'); assumption.
Qed.

Lemma pipe_condition_rearms_stream_witness :
  let a := Alsa.mkAudioParams 2 44100 Format.S16LE in
  let c := Alsa.mkDevice 7%N (Some a) (mkBufferParams 0 0 0) 0 true in
  let g := Generic.mkDevice 7%N 2 Format.S16LE 44100 (mkBufferParams 0 0 0) 0 true in
  let bytes := [Byte.x00; Byte.x00; Byte.x00; Byte.x00] in
  let int16s := Some (reflect.mkValue reflect.Slice reflect.Int16 4) in
  let pipe := Response (- EPIPE) 0 0 0%N in
  Alsa.Read starved c bytes tt
  = (Done (0, Some ErrOverrun), tt,
     [Ev (snd_pcm_readi 7%N 2) pipe; Ev (snd_pcm_prepare 7%N) ok])
  /\ Alsa.Write starved c bytes tt
     = (Done (0, Some ErrUnderrun), tt,
        [Ev (snd_pcm_writei 7%N 2) pipe; Ev (snd_pcm_prepare 7%N) ok])
  /\ Generic.Read starved g int16s tt
     = (Done (0, Some ErrOverrun), tt,
        [Ev (snd_pcm_readi 7%N 2) pipe; Ev (snd_pcm_prepare 7%N) ok])
  /\ Generic.Write starved g int16s tt
     = (Done (0, Some ErrUnderrun), tt,
        [Ev (snd_pcm_writei 7%N 2) pipe; Ev (snd_pcm_prepare 7%N) ok]).
Proof.
  cbv zeta.
  pose proof (pipe_condition_rearms_stream unit starved tt tt tt 2
                (Response (- EPIPE) 0 0 0%N) ok eq_refl) as [Ha [Hg _]].
  pose proof (Ha (Alsa.mkDevice 7%N (Some (Alsa.mkAudioParams 2 44100 Format.S16LE))
                    (mkBufferParams 0 0 0) 0 true)
                 (Alsa.mkAudioParams 2 44100 Format.S16LE)
                 [Byte.x00; Byte.x00; Byte.x00; Byte.x00]
                 eq_refl ltac:(discriminate) eq_refl eq_refl) as [Hr Hw].
  pose proof (Hg (Generic.mkDevice 7%N 2 Format.S16LE 44100 (mkBufferParams 0 0 0) 0 true)
                 (reflect.mkValue reflect.Slice reflect.Int16 4)
                 eq_refl ltac:(discriminate) eq_refl eq_refl) as [Hgr Hgw].
  split; [exact (Hr eq_refl) |].
  split; [exact (Hw eq_refl) |].
  split; [exact (Hgr eq_refl eq_refl) | exact (Hgw eq_refl eq_refl)].
Defined.

(** C6 as stated fails.  [alsa.go]: a [[]byte] (element width 1) written to
    an S16LE device (sample width 2) goes straight to [snd_pcm_writei]; that
    file has no size check and no [ErrSize].  Generic variant: a [[]uint8]
    on the same format is turned away, but with the text error of the
    [default] case, not with [ErrSize]. *)
Lemma size_mismatch_not_always_ErrSize :
  let a := Alsa.mkDevice 7%N (Some (Alsa.mkAudioParams 2 44100 Format.S16LE))
             (mkBufferParams 0 0 0) 0 true in
  let g := Generic.mkDevice 7%N 2 Format.S16LE 44100 (mkBufferParams 0 0 0) 0 true in
  let bytes := [Byte.x00; Byte.x00; Byte.x00; Byte.x00] in
  let uint8s := Some (reflect.mkValue reflect.Slice reflect.Uint8 4) in
  Format.sampleSize Format.S16LE = Some 2
  /\ reflect.Size reflect.Uint8 = Some 1
  /\ result (Alsa.Write agreeable a bytes tt) <> Done (0, Some ErrSize)
  /\ calls (trace (Alsa.Write agreeable a bytes tt)) = [snd_pcm_writei 7%N 2]
  /\ result (Generic.Write agreeable g uint8s tt) <> Done (0, Some ErrSize).
Proof.
  cbv zeta. repeat split; try reflexivity; discriminate.
Qed.

Lemma check_elem_mismatch (d : Generic.device) (k : reflect.Kind) (s want : Z) (msg : string) :
  sized_kind k = true ->
  Format.sampleSize (Generic.Format d) = Some s ->
  reflect.Size k = Some want ->
  s <> want ->
  Generic.check_elem d k msg = Done (Some ErrSize).
Proof.
  intros Hk Hs Hw Hne.
  destruct k; try discriminate Hk; simpl in Hw; injection Hw as <-;
    unfold Generic.check_elem, Generic.check_size, Generic.formatSampleSize;
    rewrite Hs; apply Z.eqb_neq in Hne; rewrite Hne; reflexivity.
Qed.

Lemma check_elem_unsized (d : Generic.device) (k : reflect.Kind) (msg : string) :
  sized_kind k = false ->
  Generic.check_elem d k msg = Done (Some (errors_New msg)).
Proof. destruct k; intros H; try discriminate H; reflexivity. Qed.

(** C6, amended.  In the generic variant a [Read] or [Write] whose buffer
    is an array or slice of int8, int16, int32, float32 or float64 elements
    whose byte width differs from the byte width of the device's sample format
    returns [ErrSize] with no backend call at all; an array or slice of any
    other element kind is turned away with the text error of the [default]
    case, with no backend call either. *)
Theorem generic_size_mismatch_rejected
    (W : Type) (backend : W -> call -> response * W)
    (d : Generic.device) (v : reflect.Value) (w : W) :
  is_container (reflect.kind v) = true ->
  (forall s want,
      sized_kind (reflect.elem v) = true ->
      Format.sampleSize (Generic.Format d) = Some s ->
      reflect.Size (reflect.elem v) = Some want ->
      s <> want ->
      Generic.Read backend d (Some v) w = (Done (0, Some ErrSize), w, [])
      /\ Generic.Write backend d (Some v) w = (Done (0, Some ErrSize), w, []))
  /\
  (sized_kind (reflect.elem v) = false ->
      Generic.Read backend d (Some v) w
        = (Done (0, Some (errors_New "Unsupported sample format")), w, [])
      /\ Generic.Write backend d (Some v) w
        = (Done (0, Some (errors_New "Write does not support this format")), w, [])).
Proof.
  intros Hc. unfold is_container in Hc. split.
  - intros s want Hk Hs Hw Hne.
    unfold Generic.Read, Generic.Write, Generic.transfer.
    rewrite Hc. simpl negb. cbv iota.
    rewrite !(check_elem_mismatch d _ s want _ Hk Hs Hw Hne). split; reflexivity.
  - intros Hk.
    unfold Generic.Read, Generic.Write, Generic.transfer.
    rewrite Hc. simpl negb. cbv iota.
    rewrite !(check_elem_unsized d _ _ Hk). split; reflexivity.
Qed.

Lemma generic_size_mismatch_rejected_witness :
  let g := Generic.mkDevice 7%N 2 Format.S16LE 44100 (mkBufferParams 0 0 0) 0 true in
  let int8s := reflect.mkValue reflect.Slice reflect.Int8 4 in
  Generic.Read agreeable g (Some int8s) tt = (Done (0, Some ErrSize), tt, [])
  /\ Generic.Write agreeable g (Some int8s) tt = (Done (0, Some ErrSize), tt, []).
Proof.
  cbv zeta.
  apply (proj1 (generic_size_mismatch_rejected unit agreeable
                  (Generic.mkDevice 7%N 2 Format.S16LE 44100 (mkBufferParams 0 0 0) 0 true)
                  (reflect.mkValue reflect.Slice reflect.Int8 4) tt eq_refl) 2 1);
    [reflexivity | reflexivity | reflexivity | lia].
Defined.

(** C10 as stated fails in the generic variant, where the checks on the
    buffer's type come first: an empty [[]int8] handed to [Read] of an S16LE
    device gets [ErrSize] back, and an empty [[]uint8] handed to [Write] the
    text error; neither panics. *)
Lemma empty_buffer_not_always_panic :
  let g := Generic.mkDevice 7%N 2 Format.S16LE 44100 (mkBufferParams 0 0 0) 0 true in
  Generic.Read agreeable g (Some (reflect.mkValue reflect.Slice reflect.Int8 0)) tt
  = (Done (0, Some ErrSize), tt, [])
  /\ Generic.Write agreeable g (Some (reflect.mkValue reflect.Slice reflect.Uint8 0)) tt
     = (Done (0, Some (errors_New "Write does not support this format")), tt, []).
Proof.
  cbv zeta. split; reflexivity.
Qed.

Lemma Alsa_transfer_empty
    (W : Type) (backend : W -> call -> response * W)
    (xfer : ptr -> Z -> call) (pipe : error) (msg : string)
    (d : Alsa.device) (w : W) :
  exists p,
    Alsa.transfer backend xfer pipe msg d [] w = (Panic p, w, [])
    /\ (forall a, Alsa.Audio d = Some a -> Alsa.Channels a <> 0 -> p = index_out_of_range).
Proof.
  unfold Alsa.transfer. destruct (Alsa.Audio d) as [a|].
  - simpl List.length. unfold quo. destruct (Alsa.Channels a =? 0) eqn:E.
    + exists divide_by_zero. split; [reflexivity |].
      intros a' Ha Hc. injection Ha as <-. apply Z.eqb_eq in E. contradiction.
    + exists index_out_of_range. split; [reflexivity | reflexivity].
  - exists nil_dereference. split; [reflexivity | discriminate].
Qed.

Lemma Generic_transfer_empty
    (W : Type) (backend : W -> call -> response * W)
    (xfer : ptr -> Z -> call) (pipe : error) (not_array unsupported msg : string)
    (d : Generic.device) (v : reflect.Value) (w : W) :
  reflect.len v = 0%nat ->
  is_container (reflect.kind v) = true ->
  Generic.check_elem d (reflect.elem v) unsupported = Done None ->
  exists p,
    Generic.transfer backend xfer pipe not_array unsupported msg d (Some v) w
      = (Panic p, w, [])
    /\ (reflect.kind v = reflect.Slice -> Generic.Channels d <> 0 -> p = index_out_of_range).
Proof.
  intros Hlen Hc Hcheck. unfold is_container in Hc.
  unfold Generic.transfer. rewrite Hc, Hcheck, Hlen. simpl negb. cbv iota.
  destruct (reflect.is_Array (reflect.kind v)) eqn:Ea.
  - exists slice_of_unaddressable_array. split; [reflexivity |].
    intros Hk. rewrite Hk in Ea. discriminate Ea.
  - simpl Z.of_nat. unfold quo. destruct (Generic.Channels d =? 0) eqn:E.
    + exists divide_by_zero. split; [reflexivity |].
      intros _ Hch. apply Z.eqb_eq in E. contradiction.
    + exists index_out_of_range. split; reflexivity.
Qed.

(** C10, amended.  In [alsa.go] every [Read] and [Write] with a
    zero-length buffer panics before any backend call, on the index [0] when
    the channel count is not zero.  In the generic variant the same holds for
    every zero-length array or slice that has passed the checks on its element
    kind; there the panic is the index one for a slice when the channel count
    is not zero. *)
Theorem empty_buffer_panics
    (W : Type) (backend : W -> call -> response * W) (w : W) :
  (forall d : Alsa.device,
      (exists p, Alsa.Read backend d [] w = (Panic p, w, [])
                 /\ (forall a, Alsa.Audio d = Some a -> Alsa.Channels a <> 0 ->
                               p = index_out_of_range))
      /\ (exists p, Alsa.Write backend d [] w = (Panic p, w, [])
                 /\ (forall a, Alsa.Audio d = Some a -> Alsa.Channels a <> 0 ->
                               p = index_out_of_range)))
  /\
  (forall (d : Generic.device) (v : reflect.Value),
      reflect.len v = 0%nat ->
      is_container (reflect.kind v) = true ->
      (Generic.check_elem d (reflect.elem v) "Unsupported sample format" = Done None ->
       exists p, Generic.Read backend d (Some v) w = (Panic p, w, [])
                 /\ (reflect.kind v = reflect.Slice -> Generic.Channels d <> 0 ->
                     p = index_out_of_range))
      /\
      (Generic.check_elem d (reflect.elem v) "Write does not support this format" = Done None ->
       exists p, Generic.Write backend d (Some v) w = (Panic p, w, [])
                 /\ (reflect.kind v = reflect.Slice -> Generic.Channels d <> 0 ->
                     p = index_out_of_range))).
Proof.
  split.
  - intros d. split; apply Alsa_transfer_empty.
  - intros d v Hlen Hc. split; intros Hcheck; apply Generic_transfer_empty; assumption.
Qed.

Lemma empty_buffer_panics_witness :
  let a := Alsa.mkDevice 7%N (Some (Alsa.mkAudioParams 2 44100 Format.S16LE))
             (mkBufferParams 0 0 0) 0 true in
  let g := Generic.mkDevice 7%N 2 Format.S16LE 44100 (mkBufferParams 0 0 0) 0 true in
  Alsa.Read agreeable a [] tt = (Panic index_out_of_range, tt, [])
  /\ Generic.Read agreeable g (Some (reflect.mkValue reflect.Slice reflect.Int16 0)) tt
     = (Panic index_out_of_range, tt, []).
Proof.
  cbv zeta. split.
  - destruct (proj1 (proj1 (empty_buffer_panics unit agreeable tt)
                       (Alsa.mkDevice 7%N (Some (Alsa.mkAudioParams 2 44100 Format.S16LE))
                          (mkBufferParams 0 0 0) 0 true)))
      as [p [Hrun Hp]].
    rewrite Hrun, (Hp _ eq_refl); [reflexivity | simpl; discriminate].
  - destruct (proj1 (proj2 (empty_buffer_panics unit agreeable tt)
                       (Generic.mkDevice 7%N 2 Format.S16LE 44100 (mkBufferParams 0 0 0) 0 true)
                       (reflect.mkValue reflect.Slice reflect.Int16 0)
                       eq_refl eq_refl) eq_refl)
      as [p [Hrun Hp]].
    rewrite Hrun, (Hp eq_refl); [reflexivity | simpl; discriminate].
Defined.

(** ** Negotiation *)

Lemma requested_period_resolves (rate : Z) (hint : BufferParams) (buffer : Z) :
  PeriodFrames hint < 2 ^ 63 ->
  0 <= rate < 2 ^ 63 ->
  0 <= buffer < 2 ^ 63 ->
  requested_period rate hint buffer = resolve_period_length rate hint buffer.
Proof.
  intros Hpf Hrate Hbuf. unfold requested_period, resolve_period_length.
  rewrite !Z.gtb_ltb.
  change (2 ^ 63) with 9223372036854775808 in *.
  destruct (0 <? PeriodFrames hint) eqn:Epf.
  - apply Z.ltb_lt in Epf. apply wrap_unsigned_small.
    change (2 ^ 64) with 18446744073709551616. lia.
  - destruct (0 <? Periods hint) eqn:Ep.
    + apply Z.ltb_lt in Ep. unfold int. rewrite wrap_signed_small by
        (change (2 ^ 63) with 9223372036854775808; lia).
      rewrite Z.quot_div_nonneg by lia.
      apply wrap_unsigned_small. change (2 ^ 64) with 18446744073709551616.
      split; [apply Z.div_pos; lia |].
      assert (buffer / Periods hint <= buffer) by (apply Z.div_le_upper_bound; nia).
      lia.
    + rewrite Z.quot_div_nonneg by lia.
      apply wrap_unsigned_small. change (2 ^ 64) with 18446744073709551616.
      split; [apply Z.div_pos; lia |].
      assert (rate / 8 <= rate) by (apply Z.div_le_upper_bound; lia).
      lia.
Qed.

Ltac period_case Hok rule :=
  unfold_go; run;
  (split;
   [ intros Hok;
     first
       [ do 2 eexists; (split; [reflexivity |]); (split; [reflexivity |]);
         intros Hbuf; apply rule; [reflexivity | exact Hbuf]
       | refute_rejection Hok ]
   | split;
     [ intros v Hin; which_event Hin; subst v;
       eexists; (split; [reflexivity | intros Hbuf; apply rule; [reflexivity | exact Hbuf]])
     | intros d' Hres; try discriminate Hres; eexists; reflexivity ] ]).

(** C4.  On a backend that accepts the steps before it, the negotiation
    asks for a period length exactly once, and the length it asks for is the
    one the rule gives for the sampling rate, the hint and the buffer length
    the buffer-size step resolved to (for a hint and a rate that are Go ints,
    a rate that is not negative and a resolved buffer length below 2^63).  On
    any backend, every period length a negotiation asks for is that one, and a
    negotiation that succeeds has asked for exactly one.  Both variants. *)
Theorem period_length_resolution :
  (forall (W : Type) (backend : W -> call -> response * W)
          (d : Alsa.device) (deviceName : string) (a : Alsa.AudioParams)
          (playback : bool) (hint : BufferParams) (w : W),
      let run := Alsa.initDevice backend d deviceName (Some a) playback hint w in
      PeriodFrames hint < 2 ^ 63 ->
      0 <= Alsa.SamplingRate a < 2 ^ 63 ->
      (always_accepts backend before_period_request ->
       exists rb v,
         answers is_set_buffer_size_near (trace run) = [rb]
         /\ period_requests (trace run) = [v]
         /\ (C_snd_pcm_uframes_t (out1 rb) < 2 ^ 63 ->
             v = resolve_period_length (Alsa.SamplingRate a) hint
                   (C_snd_pcm_uframes_t (out1 rb))))
      /\ (forall v, In v (period_requests (trace run)) ->
            exists rb,
              answers is_set_buffer_size_near (trace run) = [rb]
              /\ (C_snd_pcm_uframes_t (out1 rb) < 2 ^ 63 ->
                  v = resolve_period_length (Alsa.SamplingRate a) hint
                        (C_snd_pcm_uframes_t (out1 rb))))
      /\ (forall d', result run = Done (d', None) ->
            exists v, period_requests (trace run) = [v]))
  /\
  (forall (W : Type) (backend : W -> call -> response * W)
          (d : Generic.device) (deviceName : string) (channels format rate : Z)
          (playback : bool) (hint : BufferParams) (w : W),
      let run := Generic.createDevice backend d deviceName channels format rate
                   playback hint w in
      PeriodFrames hint < 2 ^ 63 ->
      0 <= rate < 2 ^ 63 ->
      (always_accepts backend before_period_request ->
       exists rb v,
         answers is_set_buffer_size_near (trace run) = [rb]
         /\ period_requests (trace run) = [v]
         /\ (C_snd_pcm_uframes_t (out1 rb) < 2 ^ 63 ->
             v = resolve_period_length rate hint (C_snd_pcm_uframes_t (out1 rb))))
      /\ (forall v, In v (period_requests (trace run)) ->
            exists rb,
              answers is_set_buffer_size_near (trace run) = [rb]
              /\ (C_snd_pcm_uframes_t (out1 rb) < 2 ^ 63 ->
                  v = resolve_period_length rate hint (C_snd_pcm_uframes_t (out1 rb))))
      /\ (forall d', result run = Done (d', None) ->
            exists v, period_requests (trace run) = [v])).
Proof.
  split.
  - intros W backend d deviceName a playback hint w run Hpf Hrate. subst run.
    assert (Hrule : forall buffer, buffer = buffer ->
              C_snd_pcm_uframes_t buffer < 2 ^ 63 ->
              requested_period (Alsa.SamplingRate a) hint (C_snd_pcm_uframes_t buffer)
              = resolve_period_length (Alsa.SamplingRate a) hint (C_snd_pcm_uframes_t buffer)).
    { intros buffer _ Hb. apply requested_period_resolves; auto.
      split; [apply wrap_unsigned_range; lia | exact Hb]. }
    unfold always_accepts, Alsa.initDevice. period_case Hok Hrule.
  - intros W backend d deviceName channels format rate playback hint w run Hpf Hrate.
    subst run.
    assert (Hrule : forall buffer, buffer = buffer ->
              C_snd_pcm_uframes_t buffer < 2 ^ 63 ->
              requested_period rate hint (C_snd_pcm_uframes_t buffer)
              = resolve_period_length rate hint (C_snd_pcm_uframes_t buffer)).
    { intros buffer _ Hb. apply requested_period_resolves; auto.
      split; [apply wrap_unsigned_range; lia | exact Hb]. }
    unfold always_accepts, Generic.createDevice. period_case Hok Hrule.
Qed.

Lemma period_length_resolution_witness :
  let hint := mkBufferParams 0 0 4 in
  let a := Alsa.mkAudioParams 2 44100 Format.S16LE in
  let run := Alsa.initDevice obliging_layout Alsa.new_device "default" (Some a) true hint tt in
  let grun := Generic.createDevice obliging_layout Generic.new_device "default"
                2 Format.S16LE 44100 true hint tt in
  resolve_period_length 44100 hint 8192 = 2048
  /\ period_requests (trace run) = [2048]
  /\ period_requests (trace grun) = [2048]
  /\ (exists rb v,
        answers is_set_buffer_size_near (trace run) = [rb]
        /\ period_requests (trace run) = [v]
        /\ (C_snd_pcm_uframes_t (out1 rb) < 2 ^ 63 ->
            v = resolve_period_length 44100 hint (C_snd_pcm_uframes_t (out1 rb))))
  /\ (exists rb v,
        answers is_set_buffer_size_near (trace grun) = [rb]
        /\ period_requests (trace grun) = [v]
        /\ (C_snd_pcm_uframes_t (out1 rb) < 2 ^ 63 ->
            v = resolve_period_length 44100 hint (C_snd_pcm_uframes_t (out1 rb)))).
Proof.
  cbv zeta.
  assert (Hok : always_accepts obliging_layout before_period_request).
  { intros w c Hc. destruct c; try discriminate Hc; vm_compute; discriminate. }
  split; [reflexivity |]. split; [reflexivity |]. split; [reflexivity |]. split.
  - exact (proj1 (proj1 period_length_resolution unit obliging_layout Alsa.new_device
                    "default"%string (Alsa.mkAudioParams 2 44100 Format.S16LE) true
                    (mkBufferParams 0 0 4) tt
                    ltac:(reflexivity)
                    ltac:(vm_compute; split; [discriminate | reflexivity]))
                 Hok).
  - exact (proj1 (proj2 period_length_resolution unit obliging_layout Generic.new_device
                    "default"%string 2 Format.S16LE 44100 true
                    (mkBufferParams 0 0 4) tt
                    ltac:(reflexivity)
                    ltac:(vm_compute; split; [discriminate | reflexivity]))
                 Hok).
Defined.

Lemma int_C_uint (z : Z) : int (C_uint z) = C_uint z.
Proof.
  unfold int. apply wrap_signed_small.
  pose proof (wrap_unsigned_range 32 z ltac:(lia)) as H. unfold C_uint.
  change (2 ^ 32) with 4294967296 in H.
  change (2 ^ 63) with 9223372036854775808. lia.
Qed.

Lemma int_C_snd_pcm_uframes_t_le (p b : Z) :
  C_snd_pcm_uframes_t p <= C_snd_pcm_uframes_t b < 2 ^ 63 ->
  int (C_snd_pcm_uframes_t p) <= int (C_snd_pcm_uframes_t b).
Proof.
  intros H.
  pose proof (wrap_unsigned_range 64 p ltac:(lia)) as Hp.
  pose proof (wrap_unsigned_range 64 b ltac:(lia)) as Hb.
  unfold C_snd_pcm_uframes_t in *. unfold int.
  rewrite !wrap_signed_small; lia.
Qed.

Ltac layout_case Hok :=
  unfold_go; run;
  (split;
   [ intros Hok; first [ eexists; reflexivity | refute_rejection Hok ]
   | intros d' Hres; try discriminate Hres;
     injection Hres as <-; simpl;
     do 3 eexists;
     repeat (split; [reflexivity |]);
     (split; [apply int_C_uint |]);
     intros Hcontract;
     apply int_C_snd_pcm_uframes_t_le;
     apply Hcontract; simpl; auto ]).

(** C5.  On a backend that accepts every step the negotiation succeeds.
    After every successful negotiation the [Periods] field is the count the
    backend's period-count query answered, not one computed from the two
    lengths, and [BufferFrames] and [PeriodFrames] are the sizes the backend
    left in the two nearest-size calls, so that, the backend keeping its side
    of the layout (a period no longer than the buffer), the negotiated buffer
    length is at least the negotiated period length.  Both variants. *)
Theorem negotiated_layout_is_backend_reported :
  (forall (W : Type) (backend : W -> call -> response * W)
          (d : Alsa.device) (deviceName : string) (a : Alsa.AudioParams)
          (playback : bool) (hint : BufferParams) (w : W),
      let run := Alsa.initDevice backend d deviceName (Some a) playback hint w in
      (always_accepts backend negotiation_step ->
       exists d', result run = Done (d', None))
      /\
      (forall d', result run = Done (d', None) ->
         exists rb rp rn,
           answers is_set_buffer_size_near (trace run) = [rb]
           /\ answers is_set_period_size_near (trace run) = [rp]
           /\ answers is_get_periods (trace run) = [rn]
           /\ BufferFrames (Alsa.bufferParams d') = int (C_snd_pcm_uframes_t (out1 rb))
           /\ PeriodFrames (Alsa.bufferParams d') = int (C_snd_pcm_uframes_t (out1 rp))
           /\ Periods (Alsa.bufferParams d') = C_uint (out1 rn)
           /\ (layout_contract (trace run) ->
               PeriodFrames (Alsa.bufferParams d') <= BufferFrames (Alsa.bufferParams d'))))
  /\
  (forall (W : Type) (backend : W -> call -> response * W)
          (d : Generic.device) (deviceName : string) (channels format rate : Z)
          (playback : bool) (hint : BufferParams) (w : W),
      let run := Generic.createDevice backend d deviceName channels format rate
                   playback hint w in
      (always_accepts backend negotiation_step ->
       exists d', result run = Done (d', None))
      /\
      (forall d', result run = Done (d', None) ->
         exists rb rp rn,
           answers is_set_buffer_size_near (trace run) = [rb]
           /\ answers is_set_period_size_near (trace run) = [rp]
           /\ answers is_get_periods (trace run) = [rn]
           /\ BufferFrames (Generic.bufferParams d') = int (C_snd_pcm_uframes_t (out1 rb))
           /\ PeriodFrames (Generic.bufferParams d') = int (C_snd_pcm_uframes_t (out1 rp))
           /\ Periods (Generic.bufferParams d') = C_uint (out1 rn)
           /\ (layout_contract (trace run) ->
               PeriodFrames (Generic.bufferParams d')
               <= BufferFrames (Generic.bufferParams d')))).
Proof.
  split.
  - intros W backend d deviceName a playback hint w run. subst run.
    unfold always_accepts, layout_contract, Alsa.initDevice. layout_case Hok.
  - intros W backend d deviceName channels format rate playback hint w run. subst run.
    unfold always_accepts, layout_contract, Generic.createDevice. layout_case Hok.
Qed.

Lemma negotiated_layout_is_backend_reported_witness :
  let a := Alsa.mkAudioParams 2 44100 Format.S16LE in
  let hint := mkBufferParams 0 0 4 in
  let run := Alsa.initDevice obliging_layout Alsa.new_device "default" (Some a) true hint tt in
  let grun := Generic.createDevice obliging_layout Generic.new_device "default"
                2 Format.S16LE 44100 true hint tt in
  let d' := Alsa.mkDevice 1%N (Some a) (mkBufferParams 8192 2048 4) 2048 true in
  let g' := Generic.mkDevice 1%N 2 Format.S16LE 44100 (mkBufferParams 8192 2048 4) 2048 true in
  (exists d, result run = Done (d, None))
  /\ (exists g, result grun = Done (g, None))
  /\ result run = Done (d', None)
  /\ result grun = Done (g', None)
  /\ layout_contract (trace run)
  /\ layout_contract (trace grun)
  /\ PeriodFrames (Alsa.bufferParams d') <= BufferFrames (Alsa.bufferParams d')
  /\ PeriodFrames (Generic.bufferParams g') <= BufferFrames (Generic.bufferParams g').
Proof.
  cbv zeta.
  assert (Hok : always_accepts obliging_layout negotiation_step).
  { intros w c Hc. destruct c; try discriminate Hc; vm_compute; discriminate. }
  assert (Hca : layout_contract
            (trace (Alsa.initDevice obliging_layout Alsa.new_device "default"
                      (Some (Alsa.mkAudioParams 2 44100 Format.S16LE)) true
                      (mkBufferParams 0 0 4) tt))).
  { intros rb rp Hb Hp. simpl in Hb, Hp.
    destruct Hb as [<- | []]. destruct Hp as [<- | []].
    vm_compute. split; [discriminate | reflexivity]. }
  assert (Hcg : layout_contract
            (trace (Generic.createDevice obliging_layout Generic.new_device "default"
                      2 Format.S16LE 44100 true (mkBufferParams 0 0 4) tt))).
  { intros rb rp Hb Hp. simpl in Hb, Hp.
    destruct Hb as [<- | []]. destruct Hp as [<- | []].
    vm_compute. split; [discriminate | reflexivity]. }
  pose proof (proj1 negotiated_layout_is_backend_reported unit obliging_layout
                Alsa.new_device "default"%string
                (Alsa.mkAudioParams 2 44100 Format.S16LE) true
                (mkBufferParams 0 0 4) tt) as [Hsa Hfa].
  pose proof (proj2 negotiated_layout_is_backend_reported unit obliging_layout
                Generic.new_device "default"%string 2 Format.S16LE 44100 true
                (mkBufferParams 0 0 4) tt) as [Hsg Hfg].
  split; [exact (Hsa Hok) |].
  split; [exact (Hsg Hok) |].
  split; [reflexivity |].
  split; [reflexivity |].
  split; [exact Hca |].
  split; [exact Hcg |].
  split.
  - destruct (Hfa _ eq_refl) as (rb & rp & rn & _ & _ & _ & _ & _ & _ & Hle).
    exact (Hle Hca).
  - destruct (Hfg _ eq_refl) as (rb & rp & rn & _ & _ & _ & _ & _ & _ & Hle).
    exact (Hle Hcg).
Defined.

Ltac on_storing_mixer :=
  unfold Alsa.with_mixer_element, bind, cgo, defer, Return, throw;
  repeat (progress
    (cbn [storing_mixer ret out1 out2 outp ok fst snd app result world trace
          native_min native_max native_volume];
     change (C_int 0 <? 0) with false; cbv iota)).

Lemma Alsa_SetMasterVolume_on_storing_mixer (d : Alsa.device) (m : mixer_element) (p : Z) :
  let run := Alsa.SetMasterVolume storing_mixer d p m in
  result run = Done None
  /\ world run = mkElement (native_min m) (native_max m)
                   (alsa_native (C_long (native_min m)) (C_long (native_max m)) p).
Proof.
  cbv zeta. unfold Alsa.SetMasterVolume, alsa_native. on_storing_mixer.
  split; reflexivity.
Qed.

Lemma Alsa_GetMasterVolume_on_storing_mixer (d : Alsa.device) (m : mixer_element) :
  result (Alsa.GetMasterVolume storing_mixer d m) =
  match alsa_percent (C_long (native_min m)) (C_long (native_max m))
          (C_long (native_volume m)) with
  | Some q => Done (int q, None)
  | None => Panic divide_by_zero
  end.
Proof.
  unfold Alsa.GetMasterVolume, alsa_percent. on_storing_mixer.
  destruct (quo _ _); reflexivity.
Qed.

Lemma alsa_round_trip_eq (min max p : Z) :
  alsa_round_trip min max p =
  match alsa_percent (C_long min) (C_long max)
          (C_long (alsa_native (C_long min) (C_long max) p)) with
  | Some q => Done (int q, None)
  | None => Panic divide_by_zero
  end.
Proof.
  unfold alsa_round_trip.
  destruct (Alsa_SetMasterVolume_on_storing_mixer Alsa.new_device
              (mkElement min max min) p) as [Hres Hworld].
  rewrite Hres, Hworld, Alsa_GetMasterVolume_on_storing_mixer.
  reflexivity.
Qed.

(** C7 as stated fails on narrow ranges: with the range [[0, 1]] fifty
    percent is stored as native 0 and read back as 0 percent, with [[0, 3]]
    as 33 percent. *)
Lemma round_trip_off_on_narrow_range :
  alsa_round_trip 0 1 50 = Done (0, None)
  /\ alsa_round_trip 0 3 50 = Done (33, None)
  /\ ~ (Z.abs (0 - 50) <= 1).
Proof.
  repeat split; try reflexivity. vm_compute. intros H. apply H. reflexivity.
Qed.

Lemma round_trip_arith (T p : Z) :
  0 < T -> 0 <= p <= 100 ->
  let r := 100 * (p * T / 100) / T in
  0 <= r <= p /\ (p - r - 1) * T < 100.
Proof.
  intros HT Hp r.
  assert (Hq : 100 * (p * T / 100) <= p * T < 100 * (p * T / 100) + 100).
  { pose proof (Z.mul_div_le (p * T) 100 ltac:(lia)).
    pose proof (Z.mul_succ_div_gt (p * T) 100 ltac:(lia)). lia. }
  assert (Hq0 : 0 <= p * T / 100) by (apply Z.div_pos; nia).
  assert (Hr : T * r <= 100 * (p * T / 100) < T * r + T).
  { subst r.
    pose proof (Z.mul_div_le (100 * (p * T / 100)) T HT).
    pose proof (Z.mul_succ_div_gt (100 * (p * T / 100)) T HT). lia. }
  assert (Hr0 : 0 <= r) by (subst r; apply Z.div_pos; lia).
  split; [split; [exact Hr0 | nia] | nia].
Qed.

(** C7, amended ([alsa.go], a backend that stores the native value it is
    set to and hands it back, a range with [min < max] whose hundredfold
    width fits a C [long]).  [SetMasterVolume(p)] followed by
    [GetMasterVolume()] returns an [r] with [r <= p] and
    [(p - r - 1) * (max - min) < 100], for every [p] in 0..100: exactly 0 for
    0 and 100 for 100, and [p - 1] or [p] once the range is at least 100
    wide. *)
Theorem alsa_volume_round_trip (min max p : Z) :
  - 2 ^ 62 <= min -> min < max -> max <= 2 ^ 62 ->
  100 * (max - min) < 2 ^ 63 ->
  0 <= p <= 100 ->
  exists r,
    alsa_round_trip min max p = Done (r, None)
    /\ 0 <= r <= p
    /\ (p - r - 1) * (max - min) < 100
    /\ (p = 0 -> r = 0)
    /\ (p = 100 -> r = 100)
    /\ (100 <= max - min -> p - 1 <= r).
Proof.
  change (2 ^ 62) with 4611686018427387904.
  change (2 ^ 63) with 9223372036854775808.
  intros Hmin Hlt Hmax Hwide Hp.
  set (T := max - min) in *.
  assert (HT : 0 < T) by (subst T; lia).
  pose proof (round_trip_arith T p HT Hp) as Har. cbv zeta in Har.
  set (q := p * T / 100) in *.
  assert (Hq : 0 <= q <= T).
  { subst q. split; [apply Z.div_pos; nia |].
    apply Z.div_le_upper_bound; nia. }
  assert (Hsmall : forall z, - 9223372036854775808 <= z < 9223372036854775808 ->
                             C_long z = z).
  { intros z Hz. apply wrap_signed_small.
    change (2 ^ 63) with 9223372036854775808. exact Hz. }
  exists (100 * q / T).
  rewrite alsa_round_trip_eq. unfold alsa_percent, alsa_native.
  rewrite (Hsmall min), (Hsmall max), (Hsmall p) by lia.
  fold T. rewrite (Hsmall T) by lia.
  rewrite (Hsmall (p * T)) by nia.
  rewrite (Z.quot_div_nonneg (p * T) 100) by nia. fold q.
  rewrite !(Hsmall (q + min)) by lia.
  replace (q + min - min) with q by lia.
  rewrite (Hsmall q) by lia.
  rewrite (Hsmall (100 * q)) by lia.
  unfold quo. destruct (T =? 0) eqn:ET; [apply Z.eqb_eq in ET; lia |].
  rewrite (Z.quot_div_nonneg (100 * q) T) by lia.
  fold (C_long (100 * q / T)). unfold int. fold (C_long (C_long (100 * q / T))).
  rewrite !(Hsmall (100 * q / T)) by lia.
  split; [reflexivity |].
  split; [lia |].
  split; [lia |].
  split; [lia |].
  split.
  - intros ->. subst q. replace (100 * T / 100) with T by
      (rewrite Z.mul_comm, Z.div_mul; lia).
    rewrite Z.div_mul; lia.
  - intros Hw. nia.
Qed.

Lemma alsa_volume_round_trip_witness :
  exists r,
    alsa_round_trip 10 110 50 = Done (r, None)
    /\ 0 <= r <= 50
    /\ (50 - r - 1) * (110 - 10) < 100
    /\ (50 = 0 -> r = 0)
    /\ (50 = 100 -> r = 100)
    /\ (100 <= 110 - 10 -> 50 - 1 <= r).
Proof.
  apply (alsa_volume_round_trip 10 110 50); vm_compute;
    try (split; discriminate); try discriminate; reflexivity.
Defined.

(** For a range and a percentage within the stated bounds the native value
    of [alsa.go] is the linear map [min + p*(max-min)/100]. *)
Lemma alsa_native_linear (min max p : Z) :
  - 2 ^ 62 <= min -> min <= max -> max <= 2 ^ 62 ->
  100 * (max - min) < 2 ^ 63 ->
  0 <= p <= 100 ->
  alsa_native min max p = min + p * (max - min) / 100.
Proof.
  change (2 ^ 62) with 4611686018427387904.
  change (2 ^ 63) with 9223372036854775808.
  intros Hmin Hle Hmax Hwide Hp. unfold alsa_native.
  assert (Hsmall : forall z, - 9223372036854775808 <= z < 9223372036854775808 ->
                             C_long z = z).
  { intros z Hz. apply wrap_signed_small.
    change (2 ^ 63) with 9223372036854775808. exact Hz. }
  set (T := max - min) in *.
  assert (Hq : 0 <= p * T / 100 <= T).
  { split; [apply Z.div_pos; nia | apply Z.div_le_upper_bound; nia]. }
  rewrite (Hsmall p), (Hsmall T) by lia.
  rewrite (Hsmall (p * T)) by nia.
  rewrite Z.quot_div_nonneg by nia.
  rewrite Hsmall by lia. lia.
Qed.

(** Whatever the backend, every native value [SetMasterVolume] of
    [alsa.go] applies is [alsa_native] of the range the backend reported in
    that call; the generic variant applies [vol*max/100], in which the
    minimum of the range does not occur. *)
Lemma SetMasterVolume_applied_value
    (W : Type) (backend : W -> call -> response * W) (w : W) (p v : Z) :
  (forall d : Alsa.device,
      In v (applied_volumes (trace (Alsa.SetMasterVolume backend d p w))) ->
      exists min max,
        reports_range (trace (Alsa.SetMasterVolume backend d p w)) min max
        /\ v = alsa_native min max p)
  /\
  (forall d : Generic.device,
      In v (applied_volumes (trace (Generic.SetMasterVolume backend d p w))) ->
      exists min max,
        reports_range (trace (Generic.SetMasterVolume backend d p w)) min max
        /\ v = C_long (Z.quot (C_long (C_long p * max)) 100)).
Proof.
  unfold reports_range, alsa_native. split; intros d.
  - unfold Alsa.SetMasterVolume, Alsa.with_mixer_element. unfold_go.
    run; intros Hin; which_event Hin; subst v;
      (do 2 eexists; split;
       [ do 2 eexists; split; [simpl; eauto 20 |];
         split; [| split; reflexivity];
         match goal with E : (_ <? 0) = false |- 0 <= C_int (ret ?r) =>
           match type of E with context [r] => apply Z.ltb_ge in E; exact E end
         end
       | reflexivity ]).
  - unfold Generic.SetMasterVolume, Generic.with_mixer_element. unfold_go.
    run; intros Hin; which_event Hin; subst v;
      (do 2 eexists; split;
       [ do 2 eexists; split; [simpl; eauto 20 |];
         split; [| split; reflexivity];
         match goal with E : (_ <? 0) = false |- 0 <= C_int (ret ?r) =>
           match type of E with context [r] => apply Z.ltb_ge in E; exact E end
         end
       | reflexivity ]).
Qed.

(** * Further properties of the code *)

Lemma wrap_signed_range (z : Z) : - 2 ^ 63 <= wrap_signed 64 z < 2 ^ 63.
Proof.
  unfold wrap_signed.
  change (2 ^ (64 - 1)) with 9223372036854775808.
  change (2 ^ 63) with 9223372036854775808.
  change (2 ^ 64) with 18446744073709551616.
  pose proof (Z.mod_pos_bound (z + 9223372036854775808) 18446744073709551616 ltac:(lia)).
  lia.
Qed.

Lemma int_idem (z : Z) : int (int z) = int z.
Proof. unfold int. apply wrap_signed_small. apply wrap_signed_range. Qed.

Lemma frames_requested (len channels : Z) :
  0 <= len < 2 ^ 63 -> 0 < channels ->
  quo len channels = Some (len / channels)
  /\ C_snd_pcm_uframes_t (len / channels) = len / channels.
Proof.
  intros Hlen Hch.
  change (2 ^ 63) with 9223372036854775808 in Hlen.
  assert (Hq : 0 <= len / channels <= len).
  { split; [apply Z.div_pos; lia | apply Z.div_le_upper_bound; nia]. }
  split.
  - unfold quo. destruct (channels =? 0) eqn:E; [apply Z.eqb_eq in E; lia |].
    rewrite Z.quot_div_nonneg by lia. rewrite wrap_signed_small; [reflexivity |].
    change (2 ^ 63) with 9223372036854775808. lia.
  - apply wrap_unsigned_small. change (2 ^ 64) with 18446744073709551616. lia.
Qed.

Lemma samples_returned (n len channels : Z) :
  0 <= len < 2 ^ 63 -> 0 < channels -> 0 <= n <= len / channels ->
  int (int n * channels) = n * channels /\ 0 <= n * channels <= len.
Proof.
  intros Hlen Hch Hn.
  change (2 ^ 63) with 9223372036854775808 in Hlen.
  assert (Hq : channels * (len / channels) <= len) by (apply Z.mul_div_le; lia).
  assert (Hdiv : len / channels <= len) by (apply Z.div_le_upper_bound; nia).
  assert (Hb : 0 <= n * channels <= len) by nia.
  split; [| exact Hb].
  unfold int. rewrite (wrap_signed_small n) by
    (change (2 ^ 63) with 9223372036854775808; lia).
  apply wrap_signed_small. change (2 ^ 63) with 9223372036854775808. lia.
Qed.

Lemma Alsa_transfer_outcome
    (W : Type) (backend : W -> call -> response * W)
    (xfer : ptr -> Z -> call) (pipe : error) (msg : string)
    (d : Alsa.device) (a : Alsa.AudioParams) (buffer : list Byte.byte) (w : W) :
  Alsa.Audio d = Some a ->
  0 < Alsa.Channels a ->
  buffer <> [] ->
  Z.of_nat (List.length buffer) < 2 ^ 63 ->
  transfers (Alsa.transfer backend xfer pipe msg d buffer w)
    (xfer (Alsa.h d) (Z.of_nat (List.length buffer) / Alsa.Channels a))
    (Z.of_nat (List.length buffer)) (Alsa.Channels a) msg.
Proof.
  intros Ha Hch Hne Hlen.
  assert (Hl : 0 <= Z.of_nat (List.length buffer) < 2 ^ 63) by lia.
  destruct (frames_requested _ _ Hl Hch) as [Hquo Hframes].
  unfold transfers, Alsa.transfer. rewrite Ha, Hquo, Hframes.
  destruct buffer as [|b0 buffer]; [contradiction |].
  set (len := Z.of_nat (List.length (b0 :: buffer))) in *.
  unfold_go.
  destruct (backend w (xfer (Alsa.h d) (len / Alsa.Channels a))) as [r w1].
  exists r.
  destruct (C_long (ret r) =? - EPIPE) eqn:Epipe.
  - apply Z.eqb_eq in Epipe. unfold EPIPE in *.
    destruct (backend w1 (snd_pcm_prepare (Alsa.h d))) as [r1 w2].
    eexists. split; [reflexivity |]. repeat split; lia.
  - apply Z.eqb_neq in Epipe.
    destruct (C_long (ret r) <? 0) eqn:Eneg.
    + apply Z.ltb_lt in Eneg. exists []. split; [reflexivity |].
      repeat split; intros; try lia; reflexivity.
    + apply Z.ltb_ge in Eneg. exists []. split; [reflexivity |].
      split; [intros _; split; reflexivity |].
      split; [| intros; lia].
      intros Hn. destruct (samples_returned _ _ _ Hl Hch Hn) as [E Hb].
      simpl. rewrite E. split; [reflexivity | exact Hb].
Qed.

Lemma Generic_transfer_outcome
    (W : Type) (backend : W -> call -> response * W)
    (xfer : ptr -> Z -> call) (pipe : error) (not_array unsupported msg : string)
    (d : Generic.device) (v : reflect.Value) (w : W) :
  reflect.kind v = reflect.Slice ->
  Generic.check_elem d (reflect.elem v) unsupported = Done None ->
  0 < Generic.Channels d ->
  (0 < reflect.len v)%nat ->
  Z.of_nat (reflect.len v) < 2 ^ 63 ->
  transfers (Generic.transfer backend xfer pipe not_array unsupported msg d (Some v) w)
    (xfer (Generic.h d) (Z.of_nat (reflect.len v) / Generic.Channels d))
    (Z.of_nat (reflect.len v)) (Generic.Channels d) msg.
Proof.
  intros Hk Hcheck Hch Hpos Hlen.
  assert (Hl : 0 <= Z.of_nat (reflect.len v) < 2 ^ 63) by lia.
  destruct (frames_requested _ _ Hl Hch) as [Hquo Hframes].
  unfold transfers, Generic.transfer. rewrite Hk, Hcheck.
  change (negb (reflect.is_Array reflect.Slice || reflect.is_Slice reflect.Slice))
    with false.
  change (reflect.is_Array reflect.Slice) with false. cbv iota.
  rewrite Hquo, Hframes.
  destruct (Z.of_nat (reflect.len v) =? 0) eqn:Ez; [apply Z.eqb_eq in Ez; lia |].
  set (len := Z.of_nat (reflect.len v)) in *.
  unfold_go.
  destruct (backend w (xfer (Generic.h d) (len / Generic.Channels d))) as [r w1].
  exists r.
  destruct (C_long (ret r) =? - EPIPE) eqn:Epipe.
  - apply Z.eqb_eq in Epipe. unfold EPIPE in *.
    destruct (backend w1 (snd_pcm_prepare (Generic.h d))) as [r1 w2].
    eexists. split; [reflexivity |]. repeat split; lia.
  - apply Z.eqb_neq in Epipe.
    destruct (C_long (ret r) <? 0) eqn:Eneg.
    + apply Z.ltb_lt in Eneg. exists []. split; [reflexivity |].
      repeat split; intros; try lia; reflexivity.
    + apply Z.ltb_ge in Eneg. exists []. split; [reflexivity |].
      split; [intros _; split; reflexivity |].
      split; [| intros; lia].
      intros Hn. destruct (samples_returned _ _ _ Hl Hch Hn) as [E Hb].
      simpl. rewrite E. split; [reflexivity | exact Hb].
Qed.

(** X1.  A [Read] or [Write] that reaches the backend asks for
    [len(buffer) / channels] frames, whatever the sample format.  For a
    non-negative status [n] it returns [n * channels] samples and no error
    (never more than [len(buffer)] when the backend moved at most the frames
    asked for); for a negative status other than [-EPIPE] it returns 0 and the
    text error carrying that status; in both cases the transfer is the only
    backend call.  Both variants. *)
Theorem transfer_outcome
    (W : Type) (backend : W -> call -> response * W) (w : W) :
  (forall (d : Alsa.device) (a : Alsa.AudioParams) (buffer : list Byte.byte),
      Alsa.Audio d = Some a -> 0 < Alsa.Channels a ->
      buffer <> [] -> Z.of_nat (List.length buffer) < 2 ^ 63 ->
      transfers (Alsa.Read backend d buffer w)
        (snd_pcm_readi (Alsa.h d) (Z.of_nat (List.length buffer) / Alsa.Channels a))
        (Z.of_nat (List.length buffer)) (Alsa.Channels a) "read error"
      /\ transfers (Alsa.Write backend d buffer w)
           (snd_pcm_writei (Alsa.h d) (Z.of_nat (List.length buffer) / Alsa.Channels a))
           (Z.of_nat (List.length buffer)) (Alsa.Channels a) "write error")
  /\
  (forall (d : Generic.device) (v : reflect.Value),
      reflect.kind v = reflect.Slice ->
      0 < Generic.Channels d ->
      (0 < reflect.len v)%nat -> Z.of_nat (reflect.len v) < 2 ^ 63 ->
      (Generic.check_elem d (reflect.elem v) "Unsupported sample format" = Done None ->
       transfers (Generic.Read backend d (Some v) w)
         (snd_pcm_readi (Generic.h d) (Z.of_nat (reflect.len v) / Generic.Channels d))
         (Z.of_nat (reflect.len v)) (Generic.Channels d) "read error")
      /\
      (Generic.check_elem d (reflect.elem v) "Write does not support this format" = Done None ->
       transfers (Generic.Write backend d (Some v) w)
         (snd_pcm_writei (Generic.h d) (Z.of_nat (reflect.len v) / Generic.Channels d))
         (Z.of_nat (reflect.len v)) (Generic.Channels d) "write error")).
Proof.
  split.
  - intros d a buffer Ha Hch Hne Hlen.
    split; apply Alsa_transfer_outcome; assumption.
  - intros d v Hk Hch Hpos Hlen.
    split; intros Hcheck; apply Generic_transfer_outcome; assumption.
Qed.

Lemma transfer_outcome_witness :
  let d := Alsa.mkDevice 7%N (Some (Alsa.mkAudioParams 2 44100 Format.S16LE))
             (mkBufferParams 0 0 0) 0 true in
  let buffer := [Byte.x00; Byte.x00; Byte.x00; Byte.x00] in
  transfers (Alsa.Read agreeable d buffer tt) (snd_pcm_readi 7%N (4 / 2)) 4 2 "read error".
Proof.
  cbv zeta.
  apply (proj1 (proj1 (transfer_outcome unit agreeable tt)
                  (Alsa.mkDevice 7%N (Some (Alsa.mkAudioParams 2 44100 Format.S16LE))
                     (mkBufferParams 0 0 0) 0 true)
                  (Alsa.mkAudioParams 2 44100 Format.S16LE)
                  [Byte.x00; Byte.x00; Byte.x00; Byte.x00]
                  eq_refl ltac:(reflexivity) ltac:(discriminate) ltac:(reflexivity))).
Defined.

Ltac ltb_facts :=
  repeat match goal with
         | E : (_ <? _) = true |- _ => apply Z.ltb_lt in E
         | E : (_ <? _) = false |- _ => apply Z.ltb_ge in E
         end.

Ltac freed_case :=
  unfold_go; run; ltb_facts;
  (split;
   [ intros r' Hans Hok; simpl in Hans;
     first [ discriminate Hans | injection Hans as <- ];
     first [ split; reflexivity | exfalso; lia ]
   | split;
     [ intros [Hnone | [r' [Hans Hneg]]];
       first [ reflexivity
             | discriminate
             | simpl in Hans; injection Hans as <-; exfalso; lia ]
     | unfold count_calls; simpl; lia ] ]).

(** X2.  The hardware-parameter descriptor never leaks and is never freed
    twice: in every run of the negotiation - success, rejection at any step,
    or the panic on a nil [audio] - a descriptor that was allocated is freed
    by the very last backend call, exactly once; when the allocation was not
    reached or failed nothing is freed.  Both variants. *)
Theorem hw_params_descriptor_freed_once :
  (forall (W : Type) (backend : W -> call -> response * W)
          (d : Alsa.device) (deviceName : string) (audio : option Alsa.AudioParams)
          (playback : bool) (hint : BufferParams) (w : W),
      let t := trace (Alsa.initDevice backend d deviceName audio playback hint w) in
      (forall r, answers is_hw_params_malloc t = [r] -> 0 <= C_int (ret r) ->
                 last_call t = Some (snd_pcm_hw_params_free (outp r))
                 /\ count_calls is_hw_params_free t = 1%nat)
      /\ (answers is_hw_params_malloc t = []
          \/ (exists r, answers is_hw_params_malloc t = [r] /\ C_int (ret r) < 0) ->
          count_calls is_hw_params_free t = 0%nat)
      /\ (count_calls is_hw_params_malloc t <= 1)%nat)
  /\
  (forall (W : Type) (backend : W -> call -> response * W)
          (d : Generic.device) (deviceName : string) (channels format rate : Z)
          (playback : bool) (hint : BufferParams) (w : W),
      let t := trace (Generic.createDevice backend d deviceName channels format rate
                        playback hint w) in
      (forall r, answers is_hw_params_malloc t = [r] -> 0 <= C_int (ret r) ->
                 last_call t = Some (snd_pcm_hw_params_free (outp r))
                 /\ count_calls is_hw_params_free t = 1%nat)
      /\ (answers is_hw_params_malloc t = []
          \/ (exists r, answers is_hw_params_malloc t = [r] /\ C_int (ret r) < 0) ->
          count_calls is_hw_params_free t = 0%nat)
      /\ (count_calls is_hw_params_malloc t <= 1)%nat).
Proof.
  split.
  - intros W backend d deviceName audio playback hint w. cbv zeta.
    unfold Alsa.initDevice. freed_case.
  - intros W backend d deviceName channels format rate playback hint w. cbv zeta.
    unfold Generic.createDevice. freed_case.
Qed.

Lemma hw_params_descriptor_freed_once_witness :
  let t := trace (Alsa.initDevice agreeable Alsa.new_device "default"
                    (Some (Alsa.mkAudioParams 2 44100 Format.S16LE)) true
                    (mkBufferParams 0 0 0) tt) in
  last_call t = Some (snd_pcm_hw_params_free 1%N)
  /\ count_calls is_hw_params_free t = 1%nat.
Proof.
  cbv zeta.
  apply (proj1 (proj1 hw_params_descriptor_freed_once unit agreeable Alsa.new_device
                  "default"%string (Some (Alsa.mkAudioParams 2 44100 Format.S16LE)) true
                  (mkBufferParams 0 0 0) tt) ok);
    [reflexivity | vm_compute; discriminate].
Defined.

Ltac order_case :=
  unfold_go; run; intros Hres; try discriminate Hres;
  injection Hres as <-;
  unfold negotiation_calls; simpl;
  match goal with E : (BufferFrames _ =? 0) = _ |- _ => rewrite E end;
  (split; [reflexivity |]);
  (split; [reflexivity |]);
  (split; [eexists; split; reflexivity |]);
  repeat split; reflexivity.

(** X3.  A negotiation that succeeds has made exactly the calls of
    [negotiation_calls], in that order: open, allocate the descriptor, load
    the defaults, then access mode, format, channels and rate, the buffer size
    (preceded by the query for the maximum only when the hint's buffer length
    is 0), the period size, the period-count query, the commit, and last the
    release of the descriptor.  The device it leaves holds the handle the
    backend opened and the audio parameters as requested, has its finalizer
    registered and [frames] equal to the negotiated period length.  Both
    variants. *)
Theorem successful_negotiation_call_order :
  (forall (W : Type) (backend : W -> call -> response * W)
          (d d' : Alsa.device) (deviceName : string) (a : Alsa.AudioParams)
          (playback : bool) (hint : BufferParams) (w : W),
      let run := Alsa.initDevice backend d deviceName (Some a) playback hint w in
      result run = Done (d', None) ->
      calls (trace run)
      = negotiation_calls (Alsa.h d) deviceName playback (Alsa.SampleFormat a)
          (Alsa.Channels a) (Alsa.SamplingRate a) hint (trace run)
      /\ List.length (trace run) = (if BufferFrames hint =? 0 then 13%nat else 12%nat)
      /\ (exists ro, answers is_pcm_open (trace run) = [ro] /\ Alsa.h d' = outp ro)
      /\ Alsa.Audio d' = Some a
      /\ Alsa.finalizer d' = true
      /\ Alsa.frames d' = PeriodFrames (Alsa.bufferParams d'))
  /\
  (forall (W : Type) (backend : W -> call -> response * W)
          (d d' : Generic.device) (deviceName : string) (channels format rate : Z)
          (playback : bool) (hint : BufferParams) (w : W),
      let run := Generic.createDevice backend d deviceName channels format rate
                   playback hint w in
      result run = Done (d', None) ->
      calls (trace run)
      = negotiation_calls (Generic.h d) deviceName playback format channels rate
          hint (trace run)
      /\ List.length (trace run) = (if BufferFrames hint =? 0 then 13%nat else 12%nat)
      /\ (exists ro, answers is_pcm_open (trace run) = [ro] /\ Generic.h d' = outp ro)
      /\ (Generic.Channels d' = channels /\ Generic.Format d' = format
          /\ Generic.Rate d' = rate)
      /\ Generic.finalizer d' = true
      /\ Generic.frames d' = PeriodFrames (Generic.bufferParams d')).
Proof.
  split.
  - intros W backend d d' deviceName a playback hint w run. subst run.
    unfold Alsa.initDevice. order_case.
  - intros W backend d d' deviceName channels format rate playback hint w run. subst run.
    unfold Generic.createDevice. order_case.
Qed.

Lemma successful_negotiation_call_order_witness :
  let a := Alsa.mkAudioParams 2 44100 Format.S16LE in
  let hint := mkBufferParams 0 0 4 in
  let run := Alsa.initDevice obliging_layout Alsa.new_device "default" (Some a) true hint tt in
  let d' := Alsa.mkDevice 1%N (Some a) (mkBufferParams 8192 2048 4) 2048 true in
  calls (trace run)
  = negotiation_calls NULL "default" true Format.S16LE 2 44100 hint (trace run)
  /\ List.length (trace run) = 13%nat
  /\ (exists ro, answers is_pcm_open (trace run) = [ro] /\ Alsa.h d' = outp ro)
  /\ Alsa.Audio d' = Some a
  /\ Alsa.finalizer d' = true
  /\ Alsa.frames d' = PeriodFrames (Alsa.bufferParams d').
Proof.
  cbv zeta.
  apply (proj1 successful_negotiation_call_order unit obliging_layout Alsa.new_device
           (Alsa.mkDevice 1%N (Some (Alsa.mkAudioParams 2 44100 Format.S16LE))
              (mkBufferParams 8192 2048 4) 2048 true)
           "default"%string (Alsa.mkAudioParams 2 44100 Format.S16LE) true
           (mkBufferParams 0 0 4) tt).
  reflexivity.
Defined.

Ltac failure_case :=
  unfold_go; run; ltb_facts; intros Hres; try discriminate Hres;
  injection Hres as <- <-;
  do 2 eexists; (split; [reflexivity |]); (split; [assumption |]);
  first
    [ left; repeat split; reflexivity
    | right; eexists; repeat split; reflexivity ].

(** X4.  A negotiation that returns an error stopped at the call it made
    last before releasing the descriptor: that call was answered with a
    negative status, and the error is the one of that step.  When the step is
    the open, no other call was made and the finalizer is not touched.  For
    every later step the error carries the step's text and the status, the
    finalizer is registered, and the handle that was opened is kept in the
    device and not closed.  Both variants. *)
Theorem negotiation_error_names_failing_step :
  (forall (W : Type) (backend : W -> call -> response * W)
          (d d' : Alsa.device) (e : error) (deviceName : string)
          (audio : option Alsa.AudioParams)
          (playback : bool) (hint : BufferParams) (w : W),
      let run := Alsa.initDevice backend d deviceName audio playback hint w in
      result run = Done (d', Some e) ->
      exists c r,
        last_before_cleanup (trace run) = Some (Ev c r)
        /\ C_int (ret r) < 0
        /\ ((e = could_not_open deviceName
             /\ trace run = [Ev (snd_pcm_open (Alsa.h d) deviceName playback) r]
             /\ Alsa.finalizer d' = Alsa.finalizer d)
            \/
            (exists msg,
               negotiation_step_message c = Some msg
               /\ e = createError msg (C_int (ret r))
               /\ Alsa.finalizer d' = true
               /\ map outp (answers is_pcm_open (trace run)) = [Alsa.h d']
               /\ count_calls is_pcm_close (trace run) = 0%nat)))
  /\
  (forall (W : Type) (backend : W -> call -> response * W)
          (d d' : Generic.device) (e : error) (deviceName : string)
          (channels format rate : Z)
          (playback : bool) (hint : BufferParams) (w : W),
      let run := Generic.createDevice backend d deviceName channels format rate
                   playback hint w in
      result run = Done (d', Some e) ->
      exists c r,
        last_before_cleanup (trace run) = Some (Ev c r)
        /\ C_int (ret r) < 0
        /\ ((e = could_not_open deviceName
             /\ trace run = [Ev (snd_pcm_open (Generic.h d) deviceName playback) r]
             /\ Generic.finalizer d' = Generic.finalizer d)
            \/
            (exists msg,
               negotiation_step_message c = Some msg
               /\ e = createError msg (C_int (ret r))
               /\ Generic.finalizer d' = true
               /\ map outp (answers is_pcm_open (trace run)) = [Generic.h d']
               /\ count_calls is_pcm_close (trace run) = 0%nat))).
Proof.
  split.
  - intros W backend d d' e deviceName audio playback hint w run. subst run.
    unfold Alsa.initDevice. failure_case.
  - intros W backend d d' e deviceName channels format rate playback hint w run.
    subst run. unfold Generic.createDevice. failure_case.
Qed.

Lemma negotiation_error_names_failing_step_witness :
  let a := Alsa.mkAudioParams 2 44100 Format.S16LE in
  let run := Alsa.initDevice rejects_format Alsa.new_device "default" (Some a) true
               (mkBufferParams 0 0 0) tt in
  let d' := Alsa.mkDevice 1%N None (mkBufferParams 0 0 0) 0 true in
  let e := createError "could not set format params" (-22) in
  result run = Done (d', Some e)
  /\ exists c r,
       last_before_cleanup (trace run) = Some (Ev c r)
       /\ C_int (ret r) < 0
       /\ ((e = could_not_open "default"
            /\ trace run = [Ev (snd_pcm_open NULL "default" true) r]
            /\ Alsa.finalizer d' = Alsa.finalizer Alsa.new_device)
           \/
           (exists msg,
              negotiation_step_message c = Some msg
              /\ e = createError msg (C_int (ret r))
              /\ Alsa.finalizer d' = true
              /\ map outp (answers is_pcm_open (trace run)) = [Alsa.h d']
              /\ count_calls is_pcm_close (trace run) = 0%nat)).
Proof.
  cbv zeta. split; [reflexivity |].
  apply (proj1 negotiation_error_names_failing_step unit rejects_format Alsa.new_device).
  reflexivity.
Defined.

(** X5.  [initDevice] of [alsa.go] panics in one situation only, a nil
    [audio]: then it never succeeds, and unless an earlier step fails it
    panics on the nil pointer right after the access mode is set, with the
    descriptor released by the deferred call and the opened handle neither
    closed nor handed back.  With a non-nil [audio] it always returns. *)
Theorem initDevice_panics_only_on_nil_audio
    (W : Type) (backend : W -> call -> response * W)
    (d : Alsa.device) (deviceName : string) (playback : bool)
    (hint : BufferParams) (w : W) :
  (forall a, exists d' e,
      result (Alsa.initDevice backend d deviceName (Some a) playback hint w) = Done (d', e))
  /\
  (let run := Alsa.initDevice backend d deviceName None playback hint w in
   (forall d', result run <> Done (d', None))
   /\ (forall p, result run = Panic p ->
         p = nil_dereference
         /\ exists ro rm,
              answers is_pcm_open (trace run) = [ro]
              /\ answers is_hw_params_malloc (trace run) = [rm]
              /\ calls (trace run)
                 = [ snd_pcm_open (Alsa.h d) deviceName playback;
                     snd_pcm_hw_params_malloc;
                     snd_pcm_hw_params_any (outp ro) (outp rm);
                     snd_pcm_hw_params_set_access (outp ro) (outp rm);
                     snd_pcm_hw_params_free (outp rm) ])
   /\ ((forall c r, In (Ev c r) (trace run) -> 0 <= C_int (ret r)) ->
       result run = Panic nil_dereference)).
Proof.
  split.
  - intros a. unfold Alsa.initDevice. unfold_go. run; eexists; eexists; reflexivity.
  - cbv zeta. unfold Alsa.initDevice. unfold_go.
    run; ltb_facts;
      (split; [intros d' H; discriminate H |]);
      (split;
       [ intros p H; try discriminate H; injection H as <-;
         (split; [reflexivity | do 2 eexists; repeat split; reflexivity])
       | intros Hok; try reflexivity; exfalso;
         match goal with
         | E : C_int (ret ?r) < 0 |- _ =>
             enough (0 <= C_int (ret r)) by lia; eapply Hok; simpl; eauto 20
         end ]).
Qed.

Lemma initDevice_panics_only_on_nil_audio_witness :
  result (Alsa.initDevice agreeable Alsa.new_device "default" None true
            (mkBufferParams 0 0 0) tt)
  = Panic nil_dereference.
Proof.
  apply (proj2 (proj2 (proj2 (initDevice_panics_only_on_nil_audio unit agreeable
                                Alsa.new_device "default"%string true
                                (mkBufferParams 0 0 0) tt)))).
  intros c r Hin. which_event Hin; vm_compute; discriminate.
Defined.

Lemma is_nil_true (p : ptr) : is_nil p = true -> p = NULL.
Proof. unfold is_nil. apply N.eqb_eq. Qed.

Lemma is_nil_false (p : ptr) : is_nil p = false -> p <> NULL.
Proof. unfold is_nil. apply N.eqb_neq. Qed.

Ltac nil_facts :=
  repeat match goal with
         | E : negb (is_nil _) = true |- _ => apply negb_true_iff, is_nil_false in E
         | E : negb (is_nil _) = false |- _ => apply negb_false_iff, is_nil_true in E
         end.

Ltac lifecycle_case :=
  unfold_go; run; intros Hres; simpl in Hres; try discriminate Hres;
  try match goal with E : true = false |- _ => discriminate E end;
  nil_facts; simpl in *;
  first [ injection Hres as <- <- | injection Hres as <- ];
  repeat match goal with
         | |- _ /\ _ => split
         | |- exists _, _ => eexists
         | |- _ -> _ => intro
         | |- _ => first [reflexivity | assumption | contradiction]
         end.

(** X6.  Open, [Close], [Close] again: when the device was opened and the
    first [Close] reported no error, the backend has seen exactly one
    [snd_pcm_close], for the handle [snd_pcm_open] returned and right after
    the [snd_pcm_drain] of that handle, as the last two calls of the whole
    run; the second [Close] reports no error either, and the device ends with
    a nil handle and no finalizer.  (A backend that "opens" a nil handle sees
    no drain and no close.)  Both variants. *)
Theorem open_close_close_releases_once :
  (forall (W : Type) (backend : W -> call -> response * W)
          (deviceName : string) (audio : option Alsa.AudioParams)
          (hint : BufferParams) (w : W) (d2 : Alsa.device) (e2 : option error),
      let run := alsa_open_close_close backend deviceName audio hint w in
      result run = Done (Some (d2, None, e2)) ->
      e2 = None /\ Alsa.h d2 = NULL /\ Alsa.finalizer d2 = false
      /\ exists ro,
           answers is_pcm_open (trace run) = [ro]
           /\ (outp ro <> NULL ->
               count_calls is_pcm_close (trace run) = 1%nat
               /\ firstn 2 (rev (calls (trace run)))
                  = [snd_pcm_close (outp ro); snd_pcm_drain (outp ro)])
           /\ (outp ro = NULL -> count_calls is_pcm_close (trace run) = 0%nat))
  /\
  (forall (W : Type) (backend : W -> call -> response * W)
          (deviceName : string) (channels format rate : Z)
          (hint : BufferParams) (w : W) (d2 : Generic.device),
      let run := generic_open_close_close backend deviceName channels format rate hint w in
      result run = Done (Some d2) ->
      Generic.h d2 = NULL /\ Generic.finalizer d2 = false
      /\ exists ro,
           answers is_pcm_open (trace run) = [ro]
           /\ (outp ro <> NULL ->
               count_calls is_pcm_close (trace run) = 1%nat
               /\ firstn 2 (rev (calls (trace run)))
                  = [snd_pcm_close (outp ro); snd_pcm_drain (outp ro)])
           /\ (outp ro = NULL -> count_calls is_pcm_close (trace run) = 0%nat)).
Proof.
  split.
  - intros W backend deviceName audio hint w d2 e2 run. subst run.
    unfold alsa_open_close_close, Alsa.NewPlaybackDevice, Alsa.initDevice, Alsa.Close.
    lifecycle_case.
  - intros W backend deviceName channels format rate hint w d2 run. subst run.
    unfold generic_open_close_close, Generic.NewPlaybackDevice, Generic.createDevice,
      Generic.Close.
    lifecycle_case.
Qed.

Lemma open_close_close_releases_once_witness :
  let a := Alsa.mkAudioParams 2 44100 Format.S16LE in
  let run := alsa_open_close_close agreeable "default" (Some a) (mkBufferParams 0 0 0) tt in
  let d2 := Alsa.mkDevice NULL (Some a) (mkBufferParams 0 0 0) 0 false in
  result run = Done (Some (d2, None, None))
  /\ Alsa.h d2 = NULL /\ Alsa.finalizer d2 = false
  /\ exists ro,
       answers is_pcm_open (trace run) = [ro]
       /\ (outp ro <> NULL ->
           count_calls is_pcm_close (trace run) = 1%nat
           /\ firstn 2 (rev (calls (trace run)))
              = [snd_pcm_close (outp ro); snd_pcm_drain (outp ro)])
       /\ (outp ro = NULL -> count_calls is_pcm_close (trace run) = 0%nat).
Proof.
  cbv zeta. split; [reflexivity |].
  apply (proj2 (proj1 open_close_close_releases_once unit agreeable "default"%string
                  (Some (Alsa.mkAudioParams 2 44100 Format.S16LE))
                  (mkBufferParams 0 0 0) tt
                  (Alsa.mkDevice NULL (Some (Alsa.mkAudioParams 2 44100 Format.S16LE))
                     (mkBufferParams 0 0 0) 0 false)
                  None eq_refl)).
Defined.

Lemma Alsa_Close_ok_nil
    (W : Type) (backend : W -> call -> response * W) (d d' : Alsa.device) (w : W) :
  result (Alsa.Close backend d w) = Done (d', None) ->
  Alsa.h d' = NULL /\ Alsa.Audio d' = Alsa.Audio d.
Proof.
  unfold Alsa.Close. unfold_go. run; intros H; try discriminate H;
    injection H as <-; nil_facts; split; first [reflexivity | assumption].
Qed.

Lemma Generic_Close_nil
    (W : Type) (backend : W -> call -> response * W) (d d' : Generic.device) (w : W) :
  result (Generic.Close backend d w) = Done d' ->
  Generic.h d' = NULL /\ Generic.Channels d' = Generic.Channels d
  /\ Generic.Format d' = Generic.Format d.
Proof.
  unfold Generic.Close. unfold_go. run; intros H; injection H as <-; nil_facts;
    repeat split; first [reflexivity | assumption].
Qed.

(** X7.  Nothing guards a closed device: after a [Close] that reported no
    error, [Drop] still calls [snd_pcm_drop] and a [Read] or [Write] of a
    non-empty buffer still calls [snd_pcm_readi] or [snd_pcm_writei], each
    with the nil handle, and returns whatever the backend's status for that
    call dictates.  Both variants. *)
Theorem closed_device_still_reaches_backend
    (W : Type) (backend : W -> call -> response * W) (w0 w : W) :
  (forall (d d' : Alsa.device) (a : Alsa.AudioParams) (buffer : list Byte.byte),
      result (Alsa.Close backend d w0) = Done (d', None) ->
      Alsa.Audio d = Some a -> 0 < Alsa.Channels a ->
      buffer <> [] -> Z.of_nat (List.length buffer) < 2 ^ 63 ->
      transfers (Alsa.Read backend d' buffer w)
        (snd_pcm_readi NULL (Z.of_nat (List.length buffer) / Alsa.Channels a))
        (Z.of_nat (List.length buffer)) (Alsa.Channels a) "read error"
      /\ transfers (Alsa.Write backend d' buffer w)
           (snd_pcm_writei NULL (Z.of_nat (List.length buffer) / Alsa.Channels a))
           (Z.of_nat (List.length buffer)) (Alsa.Channels a) "write error"
      /\ calls (trace (Alsa.Drop backend d' w)) = [snd_pcm_drop NULL])
  /\
  (forall (d d' : Generic.device) (v : reflect.Value),
      result (Generic.Close backend d w0) = Done d' ->
      reflect.kind v = reflect.Slice ->
      Generic.check_elem d (reflect.elem v) "Unsupported sample format" = Done None ->
      0 < Generic.Channels d ->
      (0 < reflect.len v)%nat -> Z.of_nat (reflect.len v) < 2 ^ 63 ->
      transfers (Generic.Read backend d' (Some v) w)
        (snd_pcm_readi NULL (Z.of_nat (reflect.len v) / Generic.Channels d))
        (Z.of_nat (reflect.len v)) (Generic.Channels d) "read error"
      /\ calls (trace (Generic.Drop backend d' w)) = [snd_pcm_drop NULL]).
Proof.
  split.
  - intros d d' a buffer Hclose Ha Hch Hne Hlen.
    destruct (Alsa_Close_ok_nil W backend d d' w0 Hclose) as [Hnil Haudio].
    rewrite <- Haudio in Ha.
    pose proof (Alsa_transfer_outcome W backend snd_pcm_readi ErrOverrun "read error"
                  d' a buffer w Ha Hch Hne Hlen) as Hr.
    pose proof (Alsa_transfer_outcome W backend snd_pcm_writei ErrUnderrun "write error"
                  d' a buffer w Ha Hch Hne Hlen) as Hw.
    rewrite Hnil in Hr, Hw.
    split; [exact Hr | split; [exact Hw |]].
    unfold Alsa.Drop. rewrite Hnil. unfold_go. run; reflexivity.
  - intros d d' v Hclose Hk Hcheck Hch Hpos Hlen.
    destruct (Generic_Close_nil W backend d d' w0 Hclose) as [Hnil [Hchan Hfmt]].
    assert (Hcheck' : Generic.check_elem d' (reflect.elem v) "Unsupported sample format"
                      = Done None).
    { unfold Generic.check_elem, Generic.check_size, Generic.formatSampleSize in *.
      rewrite Hfmt. exact Hcheck. }
    rewrite <- Hchan in Hch.
    pose proof (Generic_transfer_outcome W backend snd_pcm_readi ErrOverrun
                  "Read requires an array type" "Unsupported sample format" "read error"
                  d' v w Hk Hcheck' Hch Hpos Hlen) as Hr.
    rewrite Hnil, Hchan in Hr.
    split; [exact Hr |].
    unfold Generic.Drop. rewrite Hnil. unfold_go. run; reflexivity.
Qed.

Lemma closed_device_still_reaches_backend_witness :
  let a := Alsa.mkAudioParams 2 44100 Format.S16LE in
  let d' := Alsa.mkDevice NULL (Some a) (mkBufferParams 0 0 0) 0 false in
  let buffer := [Byte.x00; Byte.x00; Byte.x00; Byte.x00] in
  transfers (Alsa.Read agreeable d' buffer tt) (snd_pcm_readi NULL (4 / 2)) 4 2 "read error"
  /\ transfers (Alsa.Write agreeable d' buffer tt) (snd_pcm_writei NULL (4 / 2)) 4 2
       "write error"
  /\ calls (trace (Alsa.Drop agreeable d' tt)) = [snd_pcm_drop NULL].
Proof.
  cbv zeta.
  apply (proj1 (closed_device_still_reaches_backend unit agreeable tt tt)
           (Alsa.mkDevice 7%N (Some (Alsa.mkAudioParams 2 44100 Format.S16LE))
              (mkBufferParams 0 0 0) 0 true)
           (Alsa.mkDevice NULL (Some (Alsa.mkAudioParams 2 44100 Format.S16LE))
              (mkBufferParams 0 0 0) 0 false)
           (Alsa.mkAudioParams 2 44100 Format.S16LE)
           [Byte.x00; Byte.x00; Byte.x00; Byte.x00]
           eq_refl eq_refl ltac:(reflexivity) ltac:(discriminate) ltac:(reflexivity)).
Defined.

Ltac mixer_case :=
  unfold_go; run; ltb_facts; unfold mixer_released;
  (split;
   [ eexists; (split; [reflexivity |]);
     (split; intros Hro; simpl in Hro;
      first [split; reflexivity | reflexivity | exfalso; lia])
   | split;
     [ intros rs Hans Hok; simpl in Hans;
       first [ discriminate Hans | injection Hans as <- ];
       first [ split; [reflexivity | simpl; auto 20] | exfalso; lia ]
     | intros Hans; simpl in Hans; first [ reflexivity | discriminate Hans ] ] ]).

(** X8.  The volume functions release what they take from the mixer on
    every path, the division panic of [GetMasterVolume] included: an opened
    mixer handle is closed by the last backend call of the run and only once,
    an allocated element identifier is freed once, and after a failed open
    nothing else is called.  Both variants. *)
Theorem volume_calls_release_mixer
    (W : Type) (backend : W -> call -> response * W) (w : W) (volume : Z) :
  (forall d : Alsa.device,
      mixer_released (trace (Alsa.SetMasterVolume backend d volume w))
      /\ mixer_released (trace (Alsa.GetMasterVolume backend d w)))
  /\
  (forall d : Generic.device,
      mixer_released (trace (Generic.SetMasterVolume backend d volume w))
      /\ mixer_released (trace (Generic.GetMasterVolume backend d w))).
Proof.
  split; intros d; split.
  - unfold Alsa.SetMasterVolume, Alsa.with_mixer_element. mixer_case.
  - unfold Alsa.GetMasterVolume, Alsa.with_mixer_element. mixer_case.
  - unfold Generic.SetMasterVolume, Generic.with_mixer_element. mixer_case.
  - unfold Generic.GetMasterVolume, Generic.with_mixer_element. mixer_case.
Qed.

Lemma volume_calls_release_mixer_witness :
  let t := trace (Alsa.GetMasterVolume storing_mixer Alsa.new_device (mkElement 5 5 5)) in
  result (Alsa.GetMasterVolume storing_mixer Alsa.new_device (mkElement 5 5 5))
  = Panic divide_by_zero
  /\ mixer_released t.
Proof.
  cbv zeta. split; [reflexivity |].
  exact (proj2 (proj1 (volume_calls_release_mixer mixer_element storing_mixer
                         (mkElement 5 5 5) 0) Alsa.new_device)).
Defined.

(** X9.  [SetMasterVolume] of [alsa.go], on any backend: a run that
    returns no error has applied exactly one native value, and every value it
    applies is, for a percentage in 0..100 and a modest range [[min, max]]
    reported in the same run, [min + p*(max-min)/100], which lies in
    [[min, max]]. *)
Theorem Alsa_SetMasterVolume_linear
    (W : Type) (backend : W -> call -> response * W)
    (d : Alsa.device) (p : Z) (w : W) :
  0 <= p <= 100 ->
  let run := Alsa.SetMasterVolume backend d p w in
  (forall v, In v (applied_volumes (trace run)) ->
     exists min max,
       reports_range (trace run) min max
       /\ (modest_range min max ->
           v = min + p * (max - min) / 100 /\ min <= v <= max))
  /\ (result run = Done None -> exists v, applied_volumes (trace run) = [v]).
Proof.
  intros Hp run. subst run. split.
  - intros v Hin.
    destruct (proj1 (SetMasterVolume_applied_value W backend w p v) d Hin)
      as (min & max & Hrange & ->).
    exists min, max. split; [exact Hrange |].
    intros (Hmin & Hle & Hmax & Hwide).
    rewrite alsa_native_linear by assumption.
    split; [reflexivity |].
    change (2 ^ 63) with 9223372036854775808 in Hwide.
    assert (0 <= p * (max - min) / 100 <= max - min).
    { split; [apply Z.div_pos; nia | apply Z.div_le_upper_bound; nia]. }
    lia.
  - unfold Alsa.SetMasterVolume, Alsa.with_mixer_element. unfold_go.
    run; intros H; try discriminate H; eexists; reflexivity.
Qed.

Lemma Alsa_SetMasterVolume_linear_witness :
  let run := Alsa.SetMasterVolume storing_mixer Alsa.new_device 50 (mkElement 10 110 10) in
  applied_volumes (trace run) = [60]
  /\ exists min max,
       reports_range (trace run) min max
       /\ (modest_range min max -> 60 = min + 50 * (max - min) / 100 /\ min <= 60 <= max).
Proof.
  cbv zeta. split; [reflexivity |].
  apply (proj1 (Alsa_SetMasterVolume_linear mixer_element storing_mixer Alsa.new_device 50
                  (mkElement 10 110 10)
                  ltac:(vm_compute; split; discriminate)) 60).
  vm_compute. left. reflexivity.
Defined.

Lemma alsa_percent_exact (min max vol : Z) :
  modest_range min max -> min < max -> min <= vol <= max ->
  alsa_percent min max vol = Some (100 * (vol - min) / (max - min))
  /\ 0 <= 100 * (vol - min) / (max - min) <= 100.
Proof.
  intros (Hmin & Hle & Hmax & Hwide) Hlt Hvol.
  change (2 ^ 62) with 4611686018427387904 in *.
  change (2 ^ 63) with 9223372036854775808 in *.
  assert (Hsmall : forall z, - 9223372036854775808 <= z < 9223372036854775808 ->
                             C_long z = z).
  { intros z Hz. apply wrap_signed_small.
    change (2 ^ 63) with 9223372036854775808. exact Hz. }
  assert (Hr : 0 <= 100 * (vol - min) / (max - min) <= 100).
  { split; [apply Z.div_pos; lia | apply Z.div_le_upper_bound; nia]. }
  split; [| exact Hr].
  unfold alsa_percent.
  rewrite (Hsmall (vol - min)), (Hsmall (max - min)) by lia.
  rewrite (Hsmall (100 * (vol - min))) by lia.
  unfold quo. destruct (max - min =? 0) eqn:E; [apply Z.eqb_eq in E; lia |].
  rewrite Z.quot_div_nonneg by lia.
  fold (C_long (100 * (vol - min) / (max - min))).
  rewrite Hsmall by lia. reflexivity.
Qed.

(** X10.  [GetMasterVolume], on any backend: a run that returns a
    percentage has read the range and the native value from the backend in
    that run, and for a modest range with [min < max] and a native value
    within it the percentage is [100*(vol-min)/(max-min)], a number in
    0..100.  Both variants. *)
Theorem GetMasterVolume_percentage
    (W : Type) (backend : W -> call -> response * W) (w : W) (p : Z) :
  (forall d : Alsa.device,
      let run := Alsa.GetMasterVolume backend d w in
      result run = Done (p, None) ->
      exists min max rv,
        reports_range (trace run) min max
        /\ answers is_get_playback_volume (trace run) = [rv]
        /\ (modest_range min max -> min < max -> min <= C_long (out1 rv) <= max ->
            p = 100 * (C_long (out1 rv) - min) / (max - min) /\ 0 <= p <= 100))
  /\
  (forall d : Generic.device,
      let run := Generic.GetMasterVolume backend d w in
      result run = Done (p, None) ->
      exists min max rv,
        reports_range (trace run) min max
        /\ answers is_get_playback_volume (trace run) = [rv]
        /\ (modest_range min max -> min < max -> min <= C_long (out1 rv) <= max ->
            p = 100 * (C_long (out1 rv) - min) / (max - min) /\ 0 <= p <= 100)).
Proof.
  assert (Hfin : forall min max vol z,
             quo (C_long (100 * C_long (vol - min))) (C_long (max - min)) = Some z ->
             modest_range min max -> min < max -> min <= vol <= max ->
             int z = 100 * (vol - min) / (max - min)
             /\ 0 <= int z <= 100).
  { intros min max vol z Hq Hm Hlt Hvol.
    destruct (alsa_percent_exact min max vol Hm Hlt Hvol) as [Hp Hr].
    unfold alsa_percent in Hp. rewrite Hp in Hq. injection Hq as <-.
    unfold int. rewrite wrap_signed_small by
      (change (2 ^ 63) with 9223372036854775808; lia).
    split; [reflexivity | exact Hr]. }
  split; intros d; cbv zeta; unfold reports_range.
  - unfold Alsa.GetMasterVolume, Alsa.with_mixer_element.
    unfold_go; run; intros H; try discriminate H; injection H as <-; ltb_facts.
    do 3 eexists.
    split; [do 2 eexists; split; [simpl; eauto 20 |];
            split; [eassumption | split; reflexivity] |].
    split; [reflexivity |].
    simpl. intros Hm Hlt Hvol. eapply Hfin; eassumption.
  - unfold Generic.GetMasterVolume, Generic.with_mixer_element.
    unfold_go; run; intros H; try discriminate H; injection H as <-; ltb_facts.
    do 3 eexists.
    split; [do 2 eexists; split; [simpl; eauto 20 |];
            split; [eassumption | split; reflexivity] |].
    split; [reflexivity |].
    simpl. intros Hm Hlt Hvol. eapply Hfin; eassumption.
Qed.

Lemma GetMasterVolume_percentage_witness :
  let run := Alsa.GetMasterVolume storing_mixer Alsa.new_device (mkElement 10 110 60) in
  result run = Done (50, None)
  /\ exists min max rv,
       reports_range (trace run) min max
       /\ answers is_get_playback_volume (trace run) = [rv]
       /\ (modest_range min max -> min < max -> min <= C_long (out1 rv) <= max ->
           50 = 100 * (C_long (out1 rv) - min) / (max - min) /\ 0 <= 50 <= 100).
Proof.
  cbv zeta. split; [reflexivity |].
  apply (proj1 (GetMasterVolume_percentage mixer_element storing_mixer
                  (mkElement 10 110 60) 50) Alsa.new_device).
  reflexivity.
Defined.

Lemma Alsa_GetMasterVolume_world_on_storing_mixer (d : Alsa.device) (m : mixer_element) :
  world (Alsa.GetMasterVolume storing_mixer d m) = m.
Proof.
  unfold Alsa.GetMasterVolume. on_storing_mixer.
  destruct (quo _ _); destruct m; reflexivity.
Qed.

(** X11.  Reading the volume and writing the percentage straight back
    never raises the native volume and never leaves the range: on a storing
    mixer element with a modest range, [min < max] and a native value [vol]
    within it, [GetMasterVolume] followed by [SetMasterVolume] of its result
    leaves a native value [vol'] with [min <= vol' <= vol] and
    [100*(vol - vol') < (max - min) + 100] ([alsa.go]). *)
Theorem alsa_get_then_set_never_raises (min max vol : Z) :
  modest_range min max -> min < max -> min <= vol <= max ->
  exists vol',
    alsa_get_then_set (mkElement min max vol) = Done (mkElement min max vol')
    /\ min <= vol' <= vol
    /\ 100 * (vol - vol') < (max - min) + 100.
Proof.
  intros Hm Hlt Hvol.
  pose proof Hm as (Hmin & Hle & Hmax & Hwide).
  change (2 ^ 62) with 4611686018427387904 in *.
  change (2 ^ 63) with 9223372036854775808 in *.
  assert (Hsmall : forall z, - 9223372036854775808 <= z < 9223372036854775808 ->
                             C_long z = z).
  { intros z Hz. apply wrap_signed_small.
    change (2 ^ 63) with 9223372036854775808. exact Hz. }
  destruct (alsa_percent_exact min max vol Hm Hlt Hvol) as [Hp Hr].
  set (T := max - min) in *. set (dv := vol - min) in *.
  set (r := 100 * dv / T) in *.
  assert (HT : 0 < T) by (subst T; lia).
  assert (Hrd : T * r <= 100 * dv < T * r + T).
  { subst r. pose proof (Z.mul_div_le (100 * dv) T HT).
    pose proof (Z.mul_succ_div_gt (100 * dv) T HT). lia. }
  assert (Hq : 100 * (r * T / 100) <= r * T < 100 * (r * T / 100) + 100).
  { pose proof (Z.mul_div_le (r * T) 100 ltac:(lia)).
    pose proof (Z.mul_succ_div_gt (r * T) 100 ltac:(lia)). lia. }
  assert (Hq0 : 0 <= r * T / 100) by (apply Z.div_pos; nia).
  exists (min + r * T / 100).
  split; [| split; subst dv; nia].
  unfold alsa_get_then_set.
  rewrite Alsa_GetMasterVolume_on_storing_mixer, Alsa_GetMasterVolume_world_on_storing_mixer.
  cbn [native_min native_max native_volume].
  rewrite (Hsmall min), (Hsmall max), (Hsmall vol) by lia.
  fold T in Hp. rewrite Hp.
  assert (Hint : int r = r).
  { unfold int. apply wrap_signed_small.
    change (2 ^ 63) with 9223372036854775808. lia. }
  rewrite Hint.
  destruct (Alsa_SetMasterVolume_on_storing_mixer Alsa.new_device
              (mkElement min max vol) r) as [Hres Hworld].
  cbv zeta in Hres, Hworld. rewrite Hres, Hworld.
  cbn [native_min native_max].
  rewrite (Hsmall min), (Hsmall max) by lia.
  rewrite alsa_native_linear; [reflexivity | | | | |]; lia.
Qed.

Lemma alsa_get_then_set_never_raises_witness :
  exists vol',
    alsa_get_then_set (mkElement 0 3 1) = Done (mkElement 0 3 vol')
    /\ 0 <= vol' <= 1
    /\ 100 * (1 - vol') < (3 - 0) + 100.
Proof.
  apply (alsa_get_then_set_never_raises 0 3 1);
    vm_compute; repeat split; discriminate.
Defined.

Lemma check_elem_unsupported_format (d : Generic.device) (k : reflect.Kind) (msg : string) :
  sized_kind k = true ->
  Format.sampleSize (Generic.Format d) = None ->
  Generic.check_elem d k msg = Panic unsupported_format.
Proof.
  intros Hk Hf.
  destruct k; try discriminate Hk;
    unfold Generic.check_elem, Generic.check_size, Generic.formatSampleSize;
    rewrite Hf; reflexivity.
Qed.

(** X12.  [createDevice] takes any format the backend accepts, in the
    table of [formatSampleSize] or not.  On a device it created with a format
    outside the table, [Read] and [Write] of an array or slice of int8, int16,
    int32, float32 or float64 elements panic with "unsupported format" before
    any backend call, where a buffer of any other element kind gets the text
    error. *)
Theorem unsupported_format_panics_on_transfer
    (W : Type) (backend : W -> call -> response * W)
    (d d' : Generic.device) (deviceName : string) (channels format rate : Z)
    (playback : bool) (hint : BufferParams) (w w2 : W) (v : reflect.Value) :
  result (Generic.createDevice backend d deviceName channels format rate playback hint w)
  = Done (d', None) ->
  Format.sampleSize format = None ->
  is_container (reflect.kind v) = true ->
  (sized_kind (reflect.elem v) = true ->
   Generic.Read backend d' (Some v) w2 = (Panic unsupported_format, w2, [])
   /\ Generic.Write backend d' (Some v) w2 = (Panic unsupported_format, w2, []))
  /\
  (sized_kind (reflect.elem v) = false ->
   Generic.Read backend d' (Some v) w2
   = (Done (0, Some (errors_New "Unsupported sample format")), w2, [])
   /\ Generic.Write backend d' (Some v) w2
      = (Done (0, Some (errors_New "Write does not support this format")), w2, [])).
Proof.
  intros Hcreate Hf Hc.
  assert (Hfmt : Generic.Format d' = format).
  { revert Hcreate. unfold Generic.createDevice. unfold_go.
    run; intros H; try discriminate H; injection H as <-; reflexivity. }
  rewrite <- Hfmt in Hf. unfold is_container in Hc.
  split; intros Hk; unfold Generic.Read, Generic.Write, Generic.transfer;
    rewrite Hc; simpl negb; cbv iota.
  - rewrite !(check_elem_unsupported_format d' _ _ Hk Hf). split; reflexivity.
  - rewrite !(check_elem_unsized d' _ _ Hk). split; reflexivity.
Qed.

Lemma unsupported_format_panics_on_transfer_witness :
  let d' := Generic.mkDevice 1%N 2 32 44100 (mkBufferParams 8192 5512 4) 5512 true in
  let v := reflect.mkValue reflect.Slice reflect.Int16 4 in
  Generic.Read agreeable d' (Some v) tt = (Panic unsupported_format, tt, [])
  /\ Generic.Write agreeable d' (Some v) tt = (Panic unsupported_format, tt, []).
Proof.
  cbv zeta.
  apply (proj1 (unsupported_format_panics_on_transfer unit obliging_layout
                  Generic.new_device
                  (Generic.mkDevice 1%N 2 32 44100 (mkBufferParams 8192 5512 4) 5512 true)
                  "default"%string 2 32 44100 true (mkBufferParams 0 0 0) tt tt
                  (reflect.mkValue reflect.Slice reflect.Int16 4)
                  eq_refl eq_refl eq_refl));
    reflexivity.
Defined.

(** X13.  What the generic [Read] and [Write] do with a buffer that is not
    a slice, all of it before any backend call: a nil interface panics on the
    nil type; a value that is neither array nor slice gets the text error; an
    array never reaches the backend at all - it gets the error of a failed
    element check, or panics in [val.Slice] because an array taken out of an
    [interface{}] is not addressable - so it never yields a sample count. *)
Theorem generic_transfer_needs_a_slice
    (W : Type) (backend : W -> call -> response * W) (d : Generic.device) (w : W) :
  (Generic.Read backend d None w = (Panic nil_dereference, w, [])
   /\ Generic.Write backend d None w = (Panic nil_dereference, w, []))
  /\
  (forall v, is_container (reflect.kind v) = false ->
     Generic.Read backend d (Some v) w
     = (Done (0, Some (errors_New "Read requires an array type")), w, [])
     /\ Generic.Write backend d (Some v) w
        = (Done (0, Some (errors_New "Write requires an array type")), w, []))
  /\
  (forall v, reflect.kind v = reflect.Array ->
     (trace (Generic.Read backend d (Some v) w) = []
      /\ world (Generic.Read backend d (Some v) w) = w
      /\ (forall n, result (Generic.Read backend d (Some v) w) <> Done (n, None))
      /\ (Generic.check_elem d (reflect.elem v) "Unsupported sample format" = Done None ->
          result (Generic.Read backend d (Some v) w) = Panic slice_of_unaddressable_array))
     /\
     (trace (Generic.Write backend d (Some v) w) = []
      /\ world (Generic.Write backend d (Some v) w) = w
      /\ (forall n, result (Generic.Write backend d (Some v) w) <> Done (n, None))
      /\ (Generic.check_elem d (reflect.elem v) "Write does not support this format"
          = Done None ->
          result (Generic.Write backend d (Some v) w) = Panic slice_of_unaddressable_array))).
Proof.
  split; [split; reflexivity |].
  split.
  - intros v Hc. unfold is_container in Hc.
    unfold Generic.Read, Generic.Write, Generic.transfer. rewrite Hc. split; reflexivity.
  - intros v Hk.
    unfold Generic.Read, Generic.Write, Generic.transfer. rewrite Hk.
    change (negb (reflect.is_Array reflect.Array || reflect.is_Slice reflect.Array))
      with false.
    change (reflect.is_Array reflect.Array) with true. cbv iota.
    split.
    + destruct (Generic.check_elem d (reflect.elem v) "Unsupported sample format")
        as [[e|]|p]; unfold_go; simpl;
        repeat split; try reflexivity; try discriminate; intros H; discriminate H.
    + destruct (Generic.check_elem d (reflect.elem v) "Write does not support this format")
        as [[e|]|p]; unfold_go; simpl;
        repeat split; try reflexivity; try discriminate; intros H; discriminate H.
Qed.

Lemma generic_transfer_needs_a_slice_witness :
  let g := Generic.mkDevice 7%N 2 Format.S16LE 44100 (mkBufferParams 0 0 0) 0 true in
  let v := reflect.mkValue reflect.Array reflect.Int16 4 in
  result (Generic.Read agreeable g (Some v) tt) = Panic slice_of_unaddressable_array
  /\ Generic.Read agreeable g (Some (reflect.mkValue reflect.Int64 reflect.Invalid 0)) tt
     = (Done (0, Some (errors_New "Read requires an array type")), tt, []).
Proof.
  cbv zeta. split.
  - apply (proj2 (proj2 (proj2 (proj1 (proj2 (proj2 (generic_transfer_needs_a_slice unit
             agreeable
             (Generic.mkDevice 7%N 2 Format.S16LE 44100 (mkBufferParams 0 0 0) 0 true) tt))
             (reflect.mkValue reflect.Array reflect.Int16 4) eq_refl))))).
    reflexivity.
  - apply (proj1 (proj1 (proj2 (generic_transfer_needs_a_slice unit agreeable
             (Generic.mkDevice 7%N 2 Format.S16LE 44100 (mkBufferParams 0 0 0) 0 true) tt))
             (reflect.mkValue reflect.Int64 reflect.Invalid 0) eq_refl)).
Defined.

Ltac constructs_case :=
  unfold constructs; unfold_go; run;
  (split; [reflexivity |]); (split; [reflexivity |]); (split; [reflexivity |]);
  intros od oe H; try discriminate H; injection H as <- <-;
  first [ left; split; [reflexivity | discriminate]
        | right; eexists; repeat split; reflexivity ].

(** X14.  The four constructors open the stream first, once, on a fresh
    device: [NewCaptureDevice] for capture, [NewPlaybackDevice] for playback.
    They return either a device and no error - then the finalizer is
    registered and the device holds the handle [snd_pcm_open] gave - or no
    device and an error; in neither case do they close the handle, so after a
    failed negotiation the opened handle is out of the caller's reach.  Both
    variants. *)
Theorem constructors_open_once_and_never_close
    (W : Type) (backend : W -> call -> response * W)
    (deviceName : string) (hint : BufferParams) (w : W) :
  (forall a : Alsa.AudioParams,
      constructs (Alsa.NewCaptureDevice backend deviceName (Some a) hint w)
        Alsa.h Alsa.finalizer deviceName false
      /\ constructs (Alsa.NewPlaybackDevice backend deviceName (Some a) hint w)
           Alsa.h Alsa.finalizer deviceName true)
  /\
  (forall channels format rate : Z,
      constructs (Generic.NewCaptureDevice backend deviceName channels format rate hint w)
        Generic.h Generic.finalizer deviceName false
      /\ constructs (Generic.NewPlaybackDevice backend deviceName channels format rate hint w)
           Generic.h Generic.finalizer deviceName true).
Proof.
  split.
  - intros a. split.
    + unfold Alsa.NewCaptureDevice, Alsa.initDevice. constructs_case.
    + unfold Alsa.NewPlaybackDevice, Alsa.initDevice. constructs_case.
  - intros channels format rate. split.
    + unfold Generic.NewCaptureDevice, Generic.createDevice. constructs_case.
    + unfold Generic.NewPlaybackDevice, Generic.createDevice. constructs_case.
Qed.

Lemma constructors_open_once_and_never_close_witness :
  constructs (Alsa.NewCaptureDevice rejects_format "default"
                (Some (Alsa.mkAudioParams 2 44100 Format.S16LE)) (mkBufferParams 0 0 0) tt)
    Alsa.h Alsa.finalizer "default" false
  /\ result (Alsa.NewCaptureDevice rejects_format "default"
               (Some (Alsa.mkAudioParams 2 44100 Format.S16LE)) (mkBufferParams 0 0 0) tt)
     = Done (None, Some (createError "could not set format params" (-22))).
Proof.
  split; [| reflexivity].
  exact (proj1 (proj1 (constructors_open_once_and_never_close unit rejects_format
                         "default"%string (mkBufferParams 0 0 0) tt)
                  (Alsa.mkAudioParams 2 44100 Format.S16LE))).
Defined.
